(** * Coordination pipeline: a shallow embedding and its properties

    The development follows the Python backend of the coordination
    intelligence platform:

    - [StateMachine]  : app/core/state_machine.py
    - [Ingestion]     : app/services/event_ingestion.py, app/core/security.py,
                        app/api/events.py
    - [Coordinator]   : app/agents/coordinator.py
    - [Understanding] : app/agents/understanding.py
    - [Analytics]     : app/services/analytics.py (detect_gaps)

    Conventions.  A [datetime] is an integer number of microseconds (the
    resolution of Python's datetime); a Python float is an exact rational
    (rounding is not modelled), with the three special values where the code
    can meet them; a value that Python draws from its environment
    (datetime.utcnow(), time.time(), uuid.uuid4(), the answer of the language
    model, the HMAC digest) is an explicit argument of the function that reads
    it. *)

From Stdlib Require Import Ascii String QArith Qabs Lqa Sorted.
From stdpp Require Import gmap strings list fin_maps pretty.

Set Default Proof Using "Type".
Set Warnings "-register-all".
Open Scope Z_scope.

(** ** Python results: a value or a raised exception *)

Inductive PyExn : Type :=
  | ValueError (msg : string)
  | JSONDecodeError
  | TypeError
  | AttributeError
  | OverflowError
  | HTTPException (status_code : Z) (detail : string)
  | OtherException (msg : string).

Inductive PyResult (A : Type) : Type :=
  | Return (a : A)
  | Raise (e : PyExn).
Arguments Return {A} a.
Arguments Raise {A} e.

#[export] Instance PyResult_ret : MRet PyResult := λ A a, Return a.
#[export] Instance PyResult_bind : MBind PyResult := λ A B k r,
  match r with
  | Return a => k a
  | Raise e => Raise e
  end.

#[export] Instance PyResult_fmap : FMap PyResult := λ A B f r,
  match r with
  | Return a => Return (f a)
  | Raise e => Raise e
  end.

Definition datetime := Z.

(** timedelta.total_seconds() of [a - b], in seconds. *)
Definition total_seconds (a b : datetime) : Q := (a - b) # 1000000.

(** ** app/core/state_machine.py *)

Module StateMachine.

Inductive ConversationState : Type :=
  | IDLE
  | QUESTION_RAISED
  | CLARIFYING
  | OWNER_ASSIGNED
  | IN_PROGRESS
  | RESOLVED.

#[export] Instance ConversationState_eq_dec : EqDecision ConversationState.
Proof. solve_decision. Defined.

Definition state_code (s : ConversationState) : positive :=
  match s with
  | IDLE => 1 | QUESTION_RAISED => 2 | CLARIFYING => 3
  | OWNER_ASSIGNED => 4 | IN_PROGRESS => 5 | RESOLVED => 6
  end%positive.

Definition state_of_code (p : positive) : option ConversationState :=
  match p with
  | 1 => Some IDLE | 2 => Some QUESTION_RAISED | 3 => Some CLARIFYING
  | 4 => Some OWNER_ASSIGNED | 5 => Some IN_PROGRESS | 6 => Some RESOLVED
  | _ => None
  end%positive.

#[export] Program Instance ConversationState_countable : Countable ConversationState :=
  {| encode := state_code; decode := state_of_code |}.
Next Obligation. by intros []. Qed.

(** The [value] of the enum members. *)
Definition state_value (s : ConversationState) : string :=
  match s with
  | IDLE => "idle"
  | QUESTION_RAISED => "question_raised"
  | CLARIFYING => "clarifying"
  | OWNER_ASSIGNED => "owner_assigned"
  | IN_PROGRESS => "in_progress"
  | RESOLVED => "resolved"
  end.

Record StateTransition : Type := mkStateTransition {
  id : string;
  from_state : ConversationState;
  to_state : ConversationState;
  trigger : string;
  timestamp : datetime;
  metadata : gmap string string;
}.

Definition VALID_TRANSITIONS : gmap ConversationState (list ConversationState) :=
  list_to_map [
    (IDLE, [QUESTION_RAISED; CLARIFYING]);
    (QUESTION_RAISED, [CLARIFYING; OWNER_ASSIGNED; RESOLVED]);
    (CLARIFYING, [QUESTION_RAISED; OWNER_ASSIGNED; RESOLVED]);
    (OWNER_ASSIGNED, [IN_PROGRESS; CLARIFYING; RESOLVED]);
    (IN_PROGRESS, [RESOLVED; CLARIFYING]);
    (RESOLVED, [IDLE; QUESTION_RAISED])
  ].

Record BehaviorStateMachine : Type := mkMachine {
  current_state : ConversationState;
  transitions : list StateTransition;
  state_timestamps : gmap ConversationState datetime;
}.

(** [__init__] *)
Definition init : BehaviorStateMachine :=
  {| current_state := IDLE; transitions := []; state_timestamps := ∅ |}.

(** [can_transition]: [new_state in VALID_TRANSITIONS.get(current_state, [])] *)
Definition can_transition (self : BehaviorStateMachine)
    (new_state : ConversationState) : bool :=
  bool_decide (new_state ∈ default [] (VALID_TRANSITIONS !! current_state self)).

(** What one call of [transition_to] reads from its environment: the uuid4
    drawn for the record and the two readings of the clock. *)
Record TransitionEnv : Type := mkTransitionEnv {
  env_uuid : string;
  env_now_record : datetime;
  env_now_entry : datetime;
}.

(** [transition_to]: the returned value ([None] is Python's None) and the
    machine after the call. *)
Definition transition_to (self : BehaviorStateMachine)
    (new_state : ConversationState) (trigger : string)
    (metadata : option (gmap string string)) (env : TransitionEnv)
    : option StateTransition * BehaviorStateMachine :=
  if negb (can_transition self new_state) then (None, self)
  else
    let transition :=
      {| id := env_uuid env;
         from_state := current_state self;
         to_state := new_state;
         trigger := trigger;
         timestamp := env_now_record env;
         metadata := default ∅ metadata |} in
    (Some transition,
     {| current_state := new_state;
        transitions := transitions self ++ [transition];
        state_timestamps :=
          <[new_state := env_now_entry env]> (state_timestamps self) |}).

(** [get_time_in_state], read at clock value [now]. *)
Definition get_time_in_state (self : BehaviorStateMachine)
    (state : option ConversationState) (now : datetime) : Q :=
  let target_state := default (current_state self) state in
  match state_timestamps self !! target_state with
  | None => 0%Q
  | Some entry_time => total_seconds now entry_time
  end.

(** One call of [transition_to] as issued by a client of the machine. *)
Record Call : Type := mkCall {
  call_state : ConversationState;
  call_trigger : string;
  call_metadata : option (gmap string string);
  call_env : TransitionEnv;
}.

(** A client driving the machine through a sequence of calls; the results
    of the calls are collected in order. *)
Fixpoint run (self : BehaviorStateMachine) (calls : list Call)
    : list (option StateTransition) * BehaviorStateMachine :=
  match calls with
  | [] => ([], self)
  | c :: rest =>
      let '(r, self') :=
        transition_to self (call_state c) (call_trigger c)
                      (call_metadata c) (call_env c) in
      let '(rs, final) := run self' rest in
      (r :: rs, final)
  end.

(** The machines a client can reach from a fresh one. *)
Inductive reachable : BehaviorStateMachine → Prop :=
  | reachable_init : reachable init
  | reachable_step self c :
      reachable self →
      reachable (transition_to self (call_state c) (call_trigger c)
                               (call_metadata c) (call_env c)).2.

(** Number of successful calls among the results. *)
Definition successes (rs : list (option StateTransition)) : nat :=
  length (filter is_Some rs).

(** The audit trail is chained: every record starts where the previous one
    ended, the first one at [start]. *)
Fixpoint chained (start : ConversationState) (l : list StateTransition) : Prop :=
  match l with
  | [] => True
  | t :: rest => from_state t = start ∧ chained (to_state t) rest
  end.

(** State the trail ends in, [start] when it is empty. *)
Definition end_state (start : ConversationState) (l : list StateTransition)
    : ConversationState :=
  foldl (λ _ t, to_state t) start l.

(** What every machine built by [transition_to] keeps. *)
Definition audit_inv (self : BehaviorStateMachine) : Prop :=
  chained IDLE (transitions self) ∧
  end_state IDLE (transitions self) = current_state self.

(** The legal transition table as the specification prints it. *)
Definition legal_table (from to : ConversationState) : bool :=
  match from, to with
  | IDLE, (QUESTION_RAISED | CLARIFYING) => true
  | QUESTION_RAISED, (CLARIFYING | OWNER_ASSIGNED | RESOLVED) => true
  | CLARIFYING, (QUESTION_RAISED | OWNER_ASSIGNED | RESOLVED) => true
  | OWNER_ASSIGNED, (IN_PROGRESS | CLARIFYING | RESOLVED) => true
  | IN_PROGRESS, (RESOLVED | CLARIFYING) => true
  | RESOLVED, (IDLE | QUESTION_RAISED) => true
  | _, _ => false
  end.

End StateMachine.

Import StateMachine.


(** ** Python strings, integers and JSON values *)

Module Py.

(** A [str] is a sequence of code points below 256 (an HTTP header is
    decoded as latin-1); [bytes] are the same type read as octets. *)
Definition code (a : ascii) : nat := nat_of_ascii a.

Definition is_ascii_char (a : ascii) : bool := bool_decide (code a < 128)%nat.

Definition chars (s : string) : list ascii := list_ascii_of_string s.

Definition isascii (s : string) : bool := forallb is_ascii_char (chars s).

(** [str.encode()], UTF-8. *)
Definition encode_char (a : ascii) : list ascii :=
  if is_ascii_char a then [a]
  else [ascii_of_nat (192 + code a / 64); ascii_of_nat (128 + code a `mod` 64)].

Definition encode (s : string) : string :=
  string_of_list_ascii (flat_map encode_char (chars s)).

(** Whitespace as [int()] strips it: tab, line feed, vertical tab, form
    feed, carriage return and space, and of the code points from 128 on the
    two that are whitespace, which [int()] first turns into spaces.  The
    separators 28 to 31 are not stripped. *)
Definition is_space (a : ascii) : bool :=
  bool_decide (code a ∈ [9; 10; 11; 12; 13; 32; 133; 160]%nat).

Fixpoint lstrip (l : list ascii) : list ascii :=
  match l with
  | a :: rest => if is_space a then lstrip rest else l
  | [] => []
  end.

Definition strip (l : list ascii) : list ascii :=
  rev (lstrip (rev (lstrip l))).

Definition digit_value (a : ascii) : option Z :=
  let n := code a in
  if bool_decide (48 ≤ n ≤ 57)%nat then Some (Z.of_nat n - 48) else None.

(** Decimal digits, single underscores allowed between two digits. *)
Fixpoint digits_value (l : list ascii) (acc : Z) (after_digit : bool) : option Z :=
  match l with
  | [] => if after_digit then Some acc else None
  | a :: rest =>
      match digit_value a with
      | Some d => digits_value rest (10 * acc + d) true
      | None =>
          if bool_decide (a = "_"%char) && after_digit
          then digits_value rest acc false
          else None
      end
  end.

(** The interpreter refuses to convert a str of more than 4300 digits
    (the default of sys.set_int_max_str_digits); leading zeros count,
    underscores do not. *)
Definition max_str_digits : nat := 4300.

Definition digit_count (l : list ascii) : nat :=
  length (List.filter (λ a, bool_decide (is_Some (digit_value a))) l).

Definition digits_within_limit (l : list ascii) : option Z :=
  match digits_value l 0 false with
  | Some z =>
      if bool_decide (digit_count l ≤ max_str_digits)%nat then Some z else None
  | None => None
  end.

(** [int(s)] for a str: [None] stands for ValueError. *)
Definition int (s : string) : option Z :=
  match strip (chars s) with
  | "+"%char :: rest => digits_within_limit rest
  | "-"%char :: rest => Z.opp <$> digits_within_limit rest
  | l => digits_within_limit l
  end.

(** Converting an int to a float overflows from 2^1024 - 2^970 on. *)
Definition float_limit : Z := 2 ^ 1024 - 2 ^ 970.

Definition float_of_int (n : Z) : PyResult Q :=
  if bool_decide (Z.abs n < float_limit) then Return (inject_Z n)
  else Raise OverflowError.

(** Comparisons of two finite floats. *)
Definition lt (a b : Q) : bool := if Qlt_le_dec a b then true else false.
Definition gt (a b : Q) : bool := lt b a.

(** [min(a, b)] and [max(a, b)] of two finite floats: the first argument
    unless the second is strictly smaller (larger). *)
Definition min (a b : Q) : Q := if lt b a then b else a.
Definition max (a b : Q) : Q := if gt b a then b else a.

(** A float that may be infinite or not a number. *)
Inductive float : Type :=
  | Fin (q : Q)
  | PosInf
  | NegInf
  | NaN.

(** [a < b]; every comparison with NaN is false. *)
Definition flt (a b : float) : bool :=
  match a, b with
  | NaN, _ | _, NaN => false
  | Fin x, Fin y => lt x y
  | NegInf, NegInf => false
  | NegInf, _ => true
  | _, NegInf => false
  | PosInf, _ => false
  | Fin _, PosInf => true
  end.

Definition fmin (a b : float) : float := if flt b a then b else a.
Definition fmax (a b : float) : float := if flt a b then b else a.

(** [a - b] *)
Definition fsub (a b : float) : float :=
  match a, b with
  | NaN, _ | _, NaN => NaN
  | Fin x, Fin y => Fin (x - y)
  | PosInf, PosInf | NegInf, NegInf => NaN
  | PosInf, _ | _, NegInf => PosInf
  | NegInf, _ | _, PosInf => NegInf
  end.

Definition fzero (a : float) : bool :=
  match a with
  | Fin q => Qeq_bool q 0
  | _ => false
  end.

(** [needle in haystack] for two str. *)
Fixpoint contains (needle haystack : string) : bool :=
  String.prefix needle haystack ||
  match haystack with
  | String _ rest => contains needle rest
  | EmptyString => false
  end.

Definition newline : string := String (ascii_of_nat 10) EmptyString.

(** [s[:n]] *)
Definition str_take (n : nat) (s : string) : string := String.substring 0 n s.

(** [l[-n:]] *)
Definition last_n {A} (n : nat) (l : list A) : list A := drop (length l - n) l.

(** Values decoded from JSON; [JNull] is None, a [JObj] is a dict. *)
Inductive json : Type :=
  | JNull
  | JBool (b : bool)
  | JInt (z : Z)
  | JFloat (f : float)
  | JStr (s : string)
  | JList (l : list json)
  | JObj (d : list (string * json)).

Fixpoint assoc (d : list (string * json)) (k : string) : option json :=
  match d with
  | [] => None
  | (k', v) :: rest => if bool_decide (k' = k) then Some v else assoc rest k
  end.

(** [d.get(k, dflt)]; only a dict has [get]. *)
Definition get (d : json) (k : string) (dflt : json) : PyResult json :=
  match d with
  | JObj kvs => Return (default dflt (assoc kvs k))
  | _ => Raise AttributeError
  end.

(** Truth value of an object. *)
Definition truthy (v : json) : bool :=
  match v with
  | JNull => false
  | JBool b => b
  | JInt z => negb (bool_decide (z = 0))
  | JFloat f => negb (fzero f)
  | JStr s => negb (bool_decide (s = ""))
  | JList l => negb (bool_decide (length l = 0%nat))
  | JObj d => negb (bool_decide (length d = 0%nat))
  end.

(** [a or b] *)
Definition or (a b : json) : json := if truthy a then a else b.

(** [v == s] for a str literal [s]. *)
Definition eq_str (v : json) (s : string) : bool :=
  match v with
  | JStr s' => bool_decide (s' = s)
  | _ => false
  end.

End Py.

(** ** app/services/event_ingestion.py, app/core/security.py, app/api/events.py *)

Module Ingestion.

Import Py.

Record SlackEvent : Type := mkSlackEvent {
  type : json;
  channel : json;
  user : json;
  text : json;
  thread_ts : json;
  message_ts : json;
  event_ts : json;
  raw_data : json;
}.

(** The service: the signing secret, the callback (its only visible effect
    here is that it may raise) and the queue, oldest event first. *)
Record EventIngestionService : Type := mkService {
  signing_secret : string;
  on_event : option (SlackEvent → PyResult ());
  _event_queue : list SlackEvent;
  _running : bool;
}.

Definition put (self : EventIngestionService) (ev : SlackEvent)
    : EventIngestionService :=
  {| signing_secret := signing_secret self;
     on_event := on_event self;
     _event_queue := _event_queue self ++ [ev];
     _running := _running self |}.

(** [main.ApplicationState], with the one attribute the endpoint reads;
    it is None until the application has started. *)
Record ApplicationState : Type := mkApplicationState {
  ingestion_service : option EventIngestionService;
}.

(** [hmac.compare_digest] on two str: TypeError unless both are ASCII. *)
Definition compare_digest (a b : string) : PyResult bool :=
  if isascii a && isascii b then Return (bool_decide (a = b))
  else Raise TypeError.

Section Verifier.

(** [hmac.new(key, msg, hashlib.sha256).hexdigest()] *)
Variable hmac_sha256_hexdigest : string → string → string.

(** [abs(time.time() - int(timestamp)) > 60 * 5], with [now] the reading of
    time.time().  The message of the ValueError leaves out the quoted
    literal that Python appends. *)
Definition timestamp_too_old (now : Q) (timestamp : string) : PyResult bool :=
  match int timestamp with
  | None => Raise (ValueError "invalid literal for int() with base 10")
  | Some t =>
      t' ← float_of_int t;
      Return (gt (Qabs (now - t')) (60 * 5))
  end.

Definition my_signature (secret timestamp body : string) : string :=
  let sig_basestring := encode ("v0:" +:+ timestamp) +:+ body in
  "v0=" +:+ hmac_sha256_hexdigest secret sig_basestring.

(** [EventIngestionService.verify_signature] *)
Definition verify_signature (self : EventIngestionService) (now : Q)
    (timestamp signature body : string) : PyResult bool :=
  old ← timestamp_too_old now timestamp;
  if (old : bool) then Return false
  else compare_digest (my_signature (signing_secret self) timestamp body) signature.

(** [SecurityManager.verify_slack_signature], for a manager holding
    [secret] as its signing secret. *)
Definition verify_slack_signature (secret : string) (now : Q)
    (timestamp signature body : string) : PyResult bool :=
  old ← timestamp_too_old now timestamp;
  if (old : bool) then Raise (HTTPException 401 "Request timestamp too old")
  else compare_digest (my_signature secret timestamp body) signature.

(** [_parse_event] *)
Definition _parse_event (event : json) : PyResult (option SlackEvent) :=
  event_type ← get event "type" JNull;
  if negb (eq_str event_type "message" || eq_str event_type "app_mention")
  then Return None
  else
    c ← get event "channel" JNull;
    let channel := or c (JStr "") in
    ts ← get event "ts" JNull;
    let message_ts := or ts (JStr "") in
    ets ← get event "event_ts" JNull;
    let event_ts := or ets message_ts in
    u ← get event "user" JNull;
    tx ← get event "text" (JStr "");
    tts ← get event "thread_ts" JNull;
    Return (Some {| type := event_type; channel := channel; user := u;
                    text := tx; thread_ts := tts; message_ts := message_ts;
                    event_ts := event_ts; raw_data := event |}).

(** [_process_event_callback]: what it raises, if anything, and the service
    afterwards. *)
Definition _process_event_callback (self : EventIngestionService) (event : json)
    : PyResult () * EventIngestionService :=
  match _parse_event event with
  | Raise e => (Raise e, self)
  | Return None => (Return (), self)
  | Return (Some validated_event) =>
      let self' := put self validated_event in
      match on_event self' with
      | Some callback => (callback validated_event, self')
      | None => (Return (), self')
      end
  end.

(** [handle_slack_event]: the returned dict or the exception, and the
    service afterwards. *)
Definition handle_slack_event (self : EventIngestionService) (now : Q)
    (event_data : json) (timestamp signature body : string)
    : PyResult json * EventIngestionService :=
  match verify_signature self now timestamp signature body with
  | Raise e => (Raise e, self)
  | Return false => (Raise (ValueError "Invalid Slack signature"), self)
  | Return true =>
      match get event_data "type" JNull with
      | Raise e => (Raise e, self)
      | Return event_type =>
          if eq_str event_type "url_verification" then
            (c ← get event_data "challenge" JNull;
             Return (JObj [("challenge", c)]), self)
          else if eq_str event_type "event_callback" then
            match get event_data "event" (JObj []) with
            | Raise e => (Raise e, self)
            | Return event =>
                let '(r, self') := _process_event_callback self event in
                (_ ← r; Return (JObj [("ok", JBool true)]), self')
            end
          else (Return (JObj [("ok", JBool true)]), self)
      end
  end.

(** POST /events/slack ([slack_events]).  [state_app] is what
    [request.state.app] finds: [None] when the request state has no such
    attribute, which raises AttributeError before the [try] is entered.
    Inside the [try] the method is looked up on [app.ingestion_service]
    (AttributeError while that is still None) before [request.json()] is
    awaited; [request_json] is the outcome of that call.  The detail of the
    HTTP 500 answer, [str(e)], is not modelled. *)
Definition slack_events (state_app : option ApplicationState) (now : Q)
    (headers : gmap string string) (request_json : PyResult json)
    (body : string) : PyResult json * option ApplicationState :=
  let timestamp := default "" (headers !! "X-Slack-Request-Timestamp") in
  let signature := default "" (headers !! "X-Slack-Signature") in
  match state_app with
  | None => (Raise AttributeError, None)
  | Some app =>
      let '(result, app') :=
        match ingestion_service app with
        | None => (Raise AttributeError, app)
        | Some service =>
            match request_json with
            | Raise e => (Raise e, app)
            | Return event_data =>
                let '(r, service') :=
                  handle_slack_event service now event_data timestamp
                    signature body in
                (r, {| ingestion_service := Some service' |})
            end
        end in
      match result with
      | Return r => (Return r, Some app')
      | Raise (ValueError msg) => (Raise (HTTPException 401 msg), Some app')
      | Raise JSONDecodeError =>
          (Raise (HTTPException 401 "JSONDecodeError"), Some app')
      | Raise _ => (Raise (HTTPException 500 "error"), Some app')
      end
  end.

End Verifier.

(** GET /events/slack ([slack_url_verification]): the request headers are
    available to the handler and not read. *)
Definition slack_url_verification (headers : gmap string string)
    (challenge : string) : json :=
  JObj [("challenge", JStr challenge)].

End Ingestion.

(** ** app/agents/coordinator.py *)

Module Coordinator.

(** An f-string, kept as its pieces: literal text, an integer printed in
    decimal, a float printed with a fixed number of decimals. *)
Inductive Fragment : Type :=
  | Lit (s : string)
  | FmtInt (z : Z)
  | FmtFixed (decimals : nat) (x : Q).

Inductive MetaValue : Type :=
  | MInt (z : Z)
  | MFloat (x : Q).

Record CoordinationDecision : Type := mkDecision {
  action : string;
  reason : list Fragment;
  priority : string;
  metadata : list (string * MetaValue);
}.

Record Thresholds : Type := mkThresholds {
  ownership_timeout_hours : Z;
  clarification_max_loops : Z;
  response_timeout_hours : Z;
  resolution_stall_hours : Z;
}.

Definition THRESHOLDS : Thresholds :=
  {| ownership_timeout_hours := 24;
     clarification_max_loops := 3;
     response_timeout_hours := 4;
     resolution_stall_hours := 48 |}.

(** [max(l)] of a non-empty list of floats. *)
Definition max_list (first : Q) (rest : list Q) : Q := foldl Py.max first rest.

(** [evaluate]; [now] is the reading of datetime.utcnow(). *)
Definition evaluate (now : datetime) (conversation_state : string)
    (time_in_state : Q) (signal_intent : string) (signal_needs_owner : bool)
    (gap_severities : list Q) (clarification_count : Z)
    (last_activity_at : datetime) : option CoordinationDecision :=
  let hours_since_activity := (total_seconds now last_activity_at / 3600)%Q in
  if bool_decide (conversation_state = "question_raised")
     && signal_needs_owner
     && Py.gt time_in_state
          (inject_Z (ownership_timeout_hours THRESHOLDS * 3600))
  then Some {|
    action := "prompt_ownership";
    reason := [Lit "No owner assigned after ";
               FmtInt (ownership_timeout_hours THRESHOLDS); Lit " hours"];
    priority := "high";
    metadata := [("hours_elapsed", MFloat (time_in_state / 3600))] |}
  else if bool_decide (conversation_state ∈ ["question_raised"; "clarifying"])
          && bool_decide (clarification_max_loops THRESHOLDS ≤ clarification_count)
  then Some {|
    action := "suggest_context";
    reason := [FmtInt clarification_count; Lit " clarification loops detected"];
    priority := "medium";
    metadata := [("clarification_count", MInt clarification_count)] |}
  else if bool_decide (signal_intent = "question")
          && Py.gt hours_since_activity
               (inject_Z (response_timeout_hours THRESHOLDS))
  then Some {|
    action := "nudge_response";
    reason := [Lit "Unanswered question for ";
               FmtFixed 1 hours_since_activity; Lit " hours"];
    priority := "medium";
    metadata := [("hours_since_activity", MFloat hours_since_activity)] |}
  else
    match gap_severities with
    | first :: rest =>
        let max_severity := max_list first rest in
        if Py.gt max_severity 0.7
        then Some {|
          action := "flag_gap";
          reason := [Lit "High severity gap detected: ";
                     FmtFixed 2 max_severity];
          priority := "high";
          metadata := [("max_severity", MFloat max_severity)] |}
        else None
    | [] => None
    end.

(** [should_intervene], on the two metrics it reads (their defaults are 0
    and "idle"). *)
Definition should_intervene (time_in_state : Q) (state : string) : bool :=
  if bool_decide (state = "question_raised") && Py.gt time_in_state 86400
  then true
  else if bool_decide (state = "in_progress") && Py.gt time_in_state 172800
  then true
  else false.

(** *** The rule table as the specification words it

    A rule looks at the inputs and proposes an action with a priority; the
    engine answers with the first rule that fires. *)

Record Inputs : Type := mkInputs {
  in_state : string;
  in_time_in_state : Q;
  in_intent : string;
  in_needs_owner : bool;
  in_gap_severities : list Q;
  in_clarification_count : Z;
  in_hours_since_activity : Q;
}.

Definition hours (h : Z) : Q := inject_Z (h * 3600).

Definition spec_rule1 (i : Inputs) : option (string * string) :=
  if bool_decide (in_state i = "question_raised") && in_needs_owner i
     && Py.gt (in_time_in_state i) (hours 24)
  then Some ("prompt_ownership", "high") else None.

Definition spec_rule2 (i : Inputs) : option (string * string) :=
  if (bool_decide (in_state i = "question_raised")
      || bool_decide (in_state i = "clarifying"))
     && bool_decide (3 ≤ in_clarification_count i)
  then Some ("suggest_context", "medium") else None.

Definition spec_rule3 (i : Inputs) : option (string * string) :=
  if bool_decide (in_intent i = "question")
     && Py.gt (in_hours_since_activity i) 4
  then Some ("nudge_response", "medium") else None.

Definition spec_rule4 (i : Inputs) : option (string * string) :=
  if existsb (λ s, Py.gt s 0.7) (in_gap_severities i)
  then Some ("flag_gap", "high") else None.

Definition spec_rules : list (Inputs → option (string * string)) :=
  [spec_rule1; spec_rule2; spec_rule3; spec_rule4].

Fixpoint first_match (rules : list (Inputs → option (string * string)))
    (i : Inputs) : option (string * string) :=
  match rules with
  | [] => None
  | r :: rest =>
      match r i with
      | Some d => Some d
      | None => first_match rest i
      end
  end.

Definition summary (d : CoordinationDecision) : string * string :=
  (action d, priority d).

End Coordinator.

(** ** app/agents/understanding.py *)

Module Understanding.

Import Py.

Module IntentType.
Inductive t : Type := QUESTION | BUG_REPORT | UPDATE | RESOLUTION.

Definition value (i : t) : string :=
  match i with
  | QUESTION => "question"
  | BUG_REPORT => "bug_report"
  | UPDATE => "update"
  | RESOLUTION => "resolution"
  end.
End IntentType.

Record BehavioralSignal : Type := mkSignal {
  intent : IntentType.t;
  topic : string;
  needs_owner : bool;
  uncertainty : float;
  confidence : float;
  entities : list string;
  implied_action : json;
}.

(** The prediction object the analyzer returns; a field that is not set on
    it is [None] here and reading it raises AttributeError. *)
Record Prediction : Type := mkPrediction {
  p_intent : option json;
  p_confidence : option json;
  p_topic : option json;
  p_entities : option json;
  p_needs_owner : option json;
  p_implied_action : option json;
}.

Definition attr (field : option json) : PyResult json :=
  match field with
  | Some v => Return v
  | None => Raise AttributeError
  end.

(** ["\n".join(l)] *)
Fixpoint join_lines (l : list string) : string :=
  match l with
  | [] => ""
  | [s] => s
  | s :: rest => s +:+ newline +:+ join_lines rest
  end.

(** The context handed to the analyzer. *)
Definition build_context (conversation_history : option (list string)) : string :=
  match conversation_history with
  | Some (m :: ms) =>
      "Recent messages:" +:+ newline +:+
      join_lines ((λ m, "- " +:+ str_take 200 m) <$> last_n 5 (m :: ms))
  | _ => ""
  end.

Section Agent.

(** Built-ins of the interpreter that the agent calls on a str:
    [float(s)] ([None] is ValueError), [s.lower()], [s.strip()],
    [json.loads(s)] and [str(v)]. *)
Variable float_of_str : string → option float.
Variable lower : string → string.
Variable strip : string → string.
Variable json_loads : string → PyResult json.
Variable str : json → string.

(** [self.analyzer(message=..., context=...)]: the language model's answer
    or the exception the call ends with. *)
Variable analyzer : string → string → PyResult Prediction.

(** [float(value)] *)
Definition to_float (value : json) : PyResult float :=
  match value with
  | JBool b => Return (Fin (if b then 1 else 0))
  | JInt z => Fin <$> float_of_int z
  | JFloat f => Return f
  | JStr s =>
      match float_of_str s with
      | Some f => Return f
      | None => Raise (ValueError "could not convert string to float")
      end
  | JNull | JList _ | JObj _ => Raise TypeError
  end.

(** [_parse_float]: ValueError and TypeError give the default, any other
    exception goes on to the caller. *)
Definition _parse_float (value : json) (dflt : float) : PyResult float :=
  match value with
  | JNull => Return dflt
  | _ =>
      match to_float value with
      | Return f => Return f
      | Raise (ValueError _) | Raise JSONDecodeError | Raise TypeError => Return dflt
      | Raise e => Raise e
      end
  end.

(** [_parse_bool] *)
Definition _parse_bool (value : json) : bool :=
  match value with
  | JNull => false
  | JBool b => b
  | JStr s => bool_decide (lower s ∈ ["true"; "1"; "yes"; "y"])
  | _ => truthy value
  end.

(** [[str(item) for item in l if item]] *)
Definition str_items (l : list json) : list string :=
  str <$> filter (λ item, truthy item = true) l.

(** [_parse_list] *)
Definition _parse_list (value : json) : PyResult (list string) :=
  match value with
  | JNull => Return []
  | JList l => Return (str_items l)
  | JStr s =>
      match json_loads s with
      | Return (JList l) => Return (str_items l)
      | Return _ => Return []
      | Raise JSONDecodeError =>
          Return (if negb (bool_decide (strip s = "")) then [s] else [])
      | Raise e => Raise e
      end
  | _ => Return []
  end.

(** [_parse_intent]; only a str has [lower]. *)
Definition _parse_intent (intent_str : json) : PyResult IntentType.t :=
  match intent_str with
  | JStr s =>
      let intent_lower := strip (lower s) in
      Return
        (if contains "question" intent_lower then IntentType.QUESTION
         else if contains "bug" intent_lower || contains "issue" intent_lower
         then IntentType.BUG_REPORT
         else if contains "fix" intent_lower || contains "resolve" intent_lower
                 || contains "done" intent_lower
         then IntentType.RESOLUTION
         else IntentType.UPDATE)
  | _ => Raise AttributeError
  end.

(** [result.topic.lower().strip() if result.topic else "unknown"] *)
Definition parse_topic (topic : json) : PyResult string :=
  if truthy topic then
    match topic with
    | JStr s => Return (strip (lower s))
    | _ => Raise AttributeError
    end
  else Return "unknown".

(** The signal returned from the [except Exception] branch. *)
Definition default_signal : BehavioralSignal :=
  {| intent := IntentType.UPDATE;
     topic := "unknown";
     needs_owner := false;
     uncertainty := Fin 1.0;
     confidence := Fin 0.5;
     entities := [];
     implied_action := JNull |}.

(** The body of the [try] block. *)
Definition analyze_try (message context : string) : PyResult BehavioralSignal :=
  result ← analyzer message context;
  raw_confidence ← attr (p_confidence result);
  confidence ← _parse_float raw_confidence (Fin 0.5);
  let confidence := fmax (Fin 0.0) (fmin (Fin 1.0) confidence) in
  raw_entities ← attr (p_entities result);
  entities ← _parse_list raw_entities;
  raw_needs_owner ← attr (p_needs_owner result);
  let needs_owner := _parse_bool raw_needs_owner in
  raw_intent ← attr (p_intent result);
  intent ← _parse_intent raw_intent;
  raw_topic ← attr (p_topic result);
  topic ← parse_topic raw_topic;
  raw_action ← attr (p_implied_action result);
  Return {| intent := intent;
            topic := topic;
            needs_owner := needs_owner;
            uncertainty := fsub (Fin 1.0) confidence;
            confidence := confidence;
            entities := entities;
            implied_action := if truthy raw_action then raw_action else JNull |}.

(** [analyze_message] *)
Definition analyze_message (message : string)
    (conversation_history : option (list string)) : BehavioralSignal :=
  let context := build_context conversation_history in
  match analyze_try message context with
  | Return signal => signal
  | Raise _ => default_signal
  end.

End Agent.

(** The range and the complement relation the signal is meant to keep. *)
Definition confidence_in_range (s : BehavioralSignal) : Prop :=
  ∃ c, confidence s = Fin c ∧ (0 <= c)%Q ∧ (c <= 1)%Q.

Definition uncertainty_is_complement (s : BehavioralSignal) : Prop :=
  ∃ c u, confidence s = Fin c ∧ uncertainty s = Fin u ∧ (u == 1 - c)%Q.

End Understanding.

(** ** app/models/database.py: the tables the gap detector reads and writes *)

Module Models.

Module ConversationState.
Inductive t : Type :=
  | IDLE | QUESTION_RAISED | CLARIFYING | OWNER_ASSIGNED | IN_PROGRESS | RESOLVED.
#[global] Instance state_eq_dec : EqDecision t.
Proof. solve_decision. Defined.
End ConversationState.

Module IntentType.
Inductive t : Type := QUESTION | BUG_REPORT | UPDATE | RESOLUTION.
#[global] Instance intent_eq_dec : EqDecision t.
Proof. solve_decision. Defined.

Definition value (i : t) : string :=
  match i with
  | QUESTION => "question"
  | BUG_REPORT => "bug_report"
  | UPDATE => "update"
  | RESOLUTION => "resolution"
  end.
End IntentType.

Module GapType.
Inductive t : Type := OWNERSHIP | CONTEXT | RESPONSE | RESOLUTION.
#[global] Instance gap_type_eq_dec : EqDecision t.
Proof. solve_decision. Defined.
End GapType.

(** Rows, with the columns [detect_gaps] touches.  [current_state] and
    [extracted_intent] are nullable; [content] and the timestamps are set
    by every writer of the tables. *)
Record Conversation : Type := mkConversation {
  c_id : string;
  c_current_state : option ConversationState.t;
}.

Record StateTransition : Type := mkTransition {
  t_conversation_id : string;
  t_to_state : ConversationState.t;
  t_timestamp : datetime;
}.

Record Message : Type := mkMessage {
  m_conversation_id : string;
  m_content : string;
  m_extracted_intent : option IntentType.t;
  m_timestamp : datetime;
}.

Record CommunicationGap : Type := mkGap {
  g_id : string;
  g_conversation_id : string;
  g_gap_type : GapType.t;
  g_detected_at : datetime;
  g_severity : Q;
  g_description : string;
}.

(** The session: one list of rows per table, in insertion order. *)
Record Db : Type := mkDb {
  conversations : list Conversation;
  state_transitions : list StateTransition;
  messages : list Message;
  communication_gaps : list CommunicationGap;
}.

(** [order_by(column)], ascending; rows with equal keys keep their order. *)
Fixpoint insert_by {A} (key : A → Z) (x : A) (l : list A) : list A :=
  match l with
  | [] => [x]
  | y :: rest =>
      if bool_decide (key x ≤ key y) then x :: l else y :: insert_by key x rest
  end.

Definition order_by {A} (key : A → Z) (l : list A) : list A :=
  foldr (insert_by key) [] l.

(** Order of two rows by their keys. *)
Definition key_le {A} (key : A → Z) (x y : A) : Prop := key x ≤ key y.

End Models.

(** ** app/services/analytics.py: [AnalyticsEngine.detect_gaps] *)

Module Analytics.

Import Models.

(** The dicts collected in [gaps]. *)
Record GapData : Type := mkGapData {
  id : string;
  gap_type : GapType.t;
  severity : Q;
  description : string;
  detected_at : datetime;
}.

Definition query_conversation (db : Db) (conversation_id : string)
    : option Conversation :=
  head (filter (λ c, c_id c = conversation_id) (conversations db)).

Definition query_transitions (db : Db) (conversation_id : string)
    : list StateTransition :=
  order_by t_timestamp
    (filter (λ t, t_conversation_id t = conversation_id) (state_transitions db)).

Definition query_messages (db : Db) (conversation_id : string) : list Message :=
  order_by m_timestamp
    (filter (λ m, m_conversation_id m = conversation_id) (messages db)).

(** Hours between the last transition and [now]; 0 without transitions. *)
Definition time_since_question (now : datetime)
    (transitions : list StateTransition) : Q :=
  match last transitions with
  | Some t => (total_seconds now (t_timestamp t) / 3600)%Q
  | None => 0%Q
  end.

(** [min(1.0, time_since_question / 72)] *)
Definition ownership_severity (hours_since : Q) : Q :=
  Py.min 1.0 (hours_since / 72).

(** First block of the scan: the ownership gap. *)
Definition ownership_gaps (conversation : Conversation)
    (transitions : list StateTransition) (now : datetime) (uuid : string)
    : list GapData :=
  if bool_decide (c_current_state conversation = Some ConversationState.QUESTION_RAISED)
     && negb (existsb
                (λ t, bool_decide (t_to_state t = ConversationState.OWNER_ASSIGNED))
                transitions)
  then
    if Py.gt (time_since_question now transitions) 24
    then [{| id := uuid;
             gap_type := GapType.OWNERSHIP;
             severity := ownership_severity (time_since_question now transitions);
             description := "No owner assigned within 24+ hours";
             detected_at := now |}]
    else []
  else [].

(** [msg.extracted_intent and "question" in msg.extracted_intent.value] *)
Definition is_question (msg : Message) : bool :=
  match m_extracted_intent msg with
  | Some i => Py.contains "question" (IntentType.value i)
  | None => false
  end.

(** [msg1.content[:100] == msg2.content[:100]] *)
Definition same_start (msg1 msg2 : Message) : bool :=
  bool_decide (Py.str_take 100 (m_content msg1) = Py.str_take 100 (m_content msg2)).

(** The inner loop, [for msg2 in messages[i+1:]], carrying the counter. *)
Fixpoint inner_loop (msg1 : Message) (later : list Message)
    (similar_questions : nat) : nat :=
  match later with
  | [] => similar_questions
  | msg2 :: rest =>
      inner_loop msg1 rest
        (if is_question msg2 && same_start msg1 msg2
         then S similar_questions else similar_questions)
  end.

(** [enumerate(l, start)] and [enumerate(l)] *)
Fixpoint enumerate_from {A} (start : nat) (l : list A) : list (nat * A) :=
  match l with
  | [] => []
  | x :: rest => (start, x) :: enumerate_from (S start) rest
  end.

Definition enumerate {A} (l : list A) : list (nat * A) := enumerate_from 0 l.

(** The outer loop, [for i, msg1 in enumerate(messages[:10])]. *)
Fixpoint outer_loop (window : list (nat * Message)) (messages : list Message)
    (similar_questions : nat) : nat :=
  match window with
  | [] => similar_questions
  | (i, msg1) :: rest =>
      outer_loop rest messages
        (if is_question msg1
         then inner_loop msg1 (drop (i + 1) messages) similar_questions
         else similar_questions)
  end.

Definition count_similar_questions (messages : list Message) : nat :=
  outer_loop (enumerate (take 10 messages)) messages 0.

(** Second block of the scan: the context gap. *)
Definition context_gaps (messages : list Message) (now : datetime)
    (uuid : string) : list GapData :=
  let similar_questions := count_similar_questions messages in
  if bool_decide (2 ≤ similar_questions)%nat
  then [{| id := uuid;
           gap_type := GapType.CONTEXT;
           severity := 0.6;
           description :=
             "Similar questions asked " +:+ pretty (similar_questions + 1)%nat
             +:+ " times";
           detected_at := now |}]
  else [].

(** [CommunicationGap(id=gap_data["id"], conversation_id=..., ...)] *)
Definition gap_row (conversation_id : string) (g : GapData) : CommunicationGap :=
  {| g_id := id g;
     g_conversation_id := conversation_id;
     g_gap_type := gap_type g;
     g_detected_at := detected_at g;
     g_severity := severity g;
     g_description := description g |}.

(** [db.add(gap)] for every dict, then [db.commit()], for identifiers that
    are new to the table, as freshly drawn uuid4 values are; the primary
    key on the identifier is enforced in [GapStore] below. *)
Definition add_gaps (db : Db) (conversation_id : string) (gaps : list GapData)
    : Db :=
  {| conversations := conversations db;
     state_transitions := state_transitions db;
     messages := messages db;
     communication_gaps :=
       communication_gaps db ++ (gap_row conversation_id <$> gaps) |}.

(** [detect_gaps]: the returned list and the session afterwards.  [now] is
    the reading of datetime.utcnow() and [uuid4 n] the n-th identifier drawn
    during the call, taken to be new to the gap table. *)
Definition detect_gaps (db : Db) (now : datetime) (uuid4 : nat → string)
    (conversation_id : string) : list GapData * Db :=
  match query_conversation db conversation_id with
  | None => ([], db)
  | Some conversation =>
      let transitions := query_transitions db conversation_id in
      let messages := query_messages db conversation_id in
      let gaps := ownership_gaps conversation transitions now (uuid4 0%nat) in
      let gaps := gaps ++ context_gaps messages now (uuid4 (length gaps)) in
      (gaps, if bool_decide (gaps = []) then db
             else add_gaps db conversation_id gaps)
  end.

(** *** The similarity pass, declaratively

    [pairs_of messages first_limit]: the index pairs [(i, j)] with
    [i < first_limit], [i < j < length messages], both messages questions
    and starting alike. *)
Definition similar_at (messages : list Message) (i j : nat) : bool :=
  match messages !! i, messages !! j with
  | Some msg1, Some msg2 =>
      is_question msg1 && is_question msg2 && same_start msg1 msg2
  | _, _ => false
  end.

Definition index_pairs (first_limit n : nat) : list (nat * nat) :=
  i ← seq 0 (first_limit `min` n);
  pair i <$> seq (i + 1) (n - (i + 1)).

Definition similar_pairs (messages : list Message) (first_limit : nat)
    : list (nat * nat) :=
  List.filter (λ p, similar_at messages p.1 p.2)
              (index_pairs first_limit (length messages)).

(** Number of elements a boolean test accepts. *)
Definition count {A} (f : A → bool) (l : list A) : nat :=
  length (List.filter f l).

(** What one turn of the outer loop adds to the counter. *)
Definition row_count (messages : list Message) (entry : nat * Message) : nat :=
  if is_question entry.2
  then count (λ msg2, is_question msg2 && same_start entry.2 msg2)
             (drop (entry.1 + 1) messages)
  else 0%nat.

(** The pass as the specification words it: only the most recent 10
    messages are looked at, and both members of a pair lie in that window. *)
Definition recent_window (messages : list Message) : list Message :=
  Py.last_n 10 messages.

Definition spec_similar_pairs (messages : list Message) : list (nat * nat) :=
  similar_pairs (recent_window messages) (length (recent_window messages)).

Definition spec_emits_context_gap (messages : list Message) : bool :=
  bool_decide (2 ≤ length (spec_similar_pairs messages))%nat.

End Analytics.

(** ** Vocabulary for the audit trail of the state machine *)

Module Trail.

Import StateMachine.

(** A record along an edge of the legal table; such an edge never loops. *)
Definition legal_record (t : StateTransition) : Prop :=
  legal_table (from_state t) (to_state t) = true ∧ from_state t ≠ to_state t.

(** Some record of the trail enters [s]. *)
Definition entered (self : BehaviorStateMachine) (s : ConversationState) : Prop :=
  ∃ t, t ∈ transitions self ∧ to_state t = s.

(** A state outside the owned part of the life cycle. *)
Definition ownerless (s : ConversationState) : Prop :=
  s ≠ OWNER_ASSIGNED ∧ s ≠ IN_PROGRESS.

End Trail.

(** ** app/main.py: [determine_state_transition] *)

Module Main.

(** [determine_state_transition]: the state proposed for a signal.  The
    machine and the trigger are received and not read; the intent of a
    signal is an enum member, so [signal.intent.value] is taken. *)
Definition determine_state_transition
    (state_machine : StateMachine.BehaviorStateMachine)
    (signal : Understanding.BehavioralSignal) (trigger : string)
    : StateMachine.ConversationState :=
  let intent := Understanding.IntentType.value (Understanding.intent signal) in
  if bool_decide (intent = "question") then
    if Understanding.needs_owner signal then StateMachine.QUESTION_RAISED
    else StateMachine.CLARIFYING
  else if bool_decide (intent = "resolution") then StateMachine.RESOLVED
  else if bool_decide (intent = "bug_report") then StateMachine.IN_PROGRESS
  else StateMachine.IDLE.

(** The trigger [handle_event] builds, [f"message:{signal.intent.value}"]. *)
Definition trigger_of (signal : Understanding.BehavioralSignal) : string :=
  "message:" +:+ Understanding.IntentType.value (Understanding.intent signal).

(** A client that attempts the proposed state with [transition_to]: the
    call it makes for one signal, on a machine [self]. *)
Definition proposal_call (self : StateMachine.BehaviorStateMachine)
    (input : Understanding.BehavioralSignal * StateMachine.TransitionEnv)
    : StateMachine.Call :=
  {| StateMachine.call_state :=
       determine_state_transition self input.1 (trigger_of input.1);
     StateMachine.call_trigger := trigger_of input.1;
     StateMachine.call_metadata := None;
     StateMachine.call_env := input.2 |}.

(** The machine after that client has handled a sequence of signals. *)
Fixpoint run_proposals (self : StateMachine.BehaviorStateMachine)
    (inputs : list (Understanding.BehavioralSignal * StateMachine.TransitionEnv))
    : StateMachine.BehaviorStateMachine :=
  match inputs with
  | [] => self
  | input :: rest =>
      let c := proposal_call self input in
      run_proposals
        (StateMachine.transition_to self (StateMachine.call_state c)
           (StateMachine.call_trigger c) (StateMachine.call_metadata c)
           (StateMachine.call_env c)).2
        rest
  end.

End Main.

(** ** The primary key of the gap table

    [communication_gaps.id] is the primary key (models/database.py): a
    commit that would store an identifier twice raises IntegrityError and
    stores nothing. *)

Module GapStore.

Import Models Analytics.

Definition IntegrityError : PyExn := OtherException "IntegrityError".

Definition stored_ids (db : Db) : list string := g_id <$> communication_gaps db.

(** The identifiers of the new rows are pairwise distinct and not stored. *)
Definition ids_fresh (db : Db) (gaps : list GapData) : Prop :=
  NoDup (id <$> gaps) ∧ Forall (λ g, id g ∉ stored_ids db) gaps.

(** [db.add(gap)] for every dict, then [db.commit()]. *)
Definition commit_gaps (db : Db) (conversation_id : string)
    (gaps : list GapData) : PyResult () * Db :=
  if bool_decide (ids_fresh db gaps)
  then (Return (), add_gaps db conversation_id gaps)
  else (Raise IntegrityError, db).

(** [detect_gaps] for identifiers that need not be new: the returned list
    or the exception of the commit, and the stored tables afterwards. *)
Definition detect_gaps_keyed (db : Db) (now : datetime) (uuid4 : nat → string)
    (conversation_id : string) : PyResult (list GapData) * Db :=
  match query_conversation db conversation_id with
  | None => (Return [], db)
  | Some conversation =>
      let transitions := query_transitions db conversation_id in
      let messages := query_messages db conversation_id in
      let gaps := ownership_gaps conversation transitions now (uuid4 0%nat) in
      let gaps := gaps ++ context_gaps messages now (uuid4 (length gaps)) in
      if bool_decide (gaps = []) then (Return gaps, db)
      else
        let '(committed, db') := commit_gaps db conversation_id gaps in
        (_ ← committed; Return gaps, db')
  end.

(** A gap without its identifier. *)
Definition unkeyed (g : GapData) : GapType.t * Q * string * datetime :=
  (gap_type g, severity g, description g, detected_at g).

End GapStore.

(** ** Counting questions in a conversation *)

Module GapBounds.

Import Models Analytics.

(** Number of pairs of question messages of a list, earlier one first. *)
Fixpoint question_pairs (l : list Message) : nat :=
  match l with
  | [] => 0
  | msg :: rest =>
      ((if is_question msg then count is_question rest else 0)
       + question_pairs rest)%nat
  end.

End GapBounds.

(** ** app/api/analytics.py: GET /analytics/gaps/{conversation_id} *)

Module AnalyticsApi.

Record GapsResponse : Type := mkGapsResponse {
  conversation_id : string;
  gaps : list Analytics.GapData;
  count : nat;
}.

(** [detect_gaps]: the answer of the endpoint and the session afterwards. *)
Definition detect_gaps (db : Models.Db) (now : datetime) (uuid4 : nat → string)
    (conversation_id : string) : GapsResponse * Models.Db :=
  let '(gaps, db') := Analytics.detect_gaps db now uuid4 conversation_id in
  ({| conversation_id := conversation_id; gaps := gaps; count := length gaps |},
   db').

End AnalyticsApi.

(** * Properties *)

(** ** Comparisons of floats *)

Lemma gt_true_iff (a b : Q) : Py.gt a b = true ↔ (b < a)%Q.
Proof.
  unfold Py.gt, Py.lt. destruct (Qlt_le_dec b a) as [Hlt|Hle].
  - done.
  - split; [done|]. intros Hlt. exfalso. by apply (Qle_not_lt _ _ Hle).
Qed.

Lemma gt_false_iff (a b : Q) : Py.gt a b = false ↔ (a <= b)%Q.
Proof.
  unfold Py.gt, Py.lt. destruct (Qlt_le_dec b a) as [Hlt|Hle].
  - split; [done|]. intros Hle. exfalso. by apply (Qle_not_lt _ _ Hle).
  - done.
Qed.

Lemma gt_max (a b c : Q) : Py.gt (Py.max a b) c = Py.gt a c || Py.gt b c.
Proof.
  unfold Py.max.
  destruct (Py.gt b a) eqn:Hba, (Py.gt a c) eqn:Hac, (Py.gt b c) eqn:Hbc;
    simpl; try reflexivity;
    repeat match goal with
    | H : Py.gt _ _ = true |- _ => apply gt_true_iff in H
    | H : Py.gt _ _ = false |- _ => apply gt_false_iff in H
    end; exfalso; lra.
Qed.

Lemma min_cases (a b : Q) :
  (b < a ∧ Py.min a b = b)%Q ∨ (a <= b ∧ Py.min a b = a)%Q.
Proof.
  unfold Py.min. fold (Py.gt a b).
  destruct (Py.gt a b) eqn:H; [left|right]; split; try reflexivity.
  - by apply gt_true_iff.
  - by apply gt_false_iff.
Qed.

(** ** The conversation state machine *)

Section StateMachineFacts.

Implicit Types (self : BehaviorStateMachine) (l : list StateTransition).

Lemma can_transition_legal_table self new_state :
  can_transition self new_state = legal_table (current_state self) new_state.
Proof.
  unfold can_transition.
  destruct (current_state self), new_state; vm_compute; reflexivity.
Qed.

Lemma end_state_snoc start l t : end_state start (l ++ [t]) = to_state t.
Proof. unfold end_state. by rewrite foldl_app. Qed.

Lemma chained_snoc start l t :
  chained start l → from_state t = end_state start l → chained start (l ++ [t]).
Proof.
  revert start. induction l as [|t' l IH]; intros start Hc Hfrom; simpl in *.
  - done.
  - destruct Hc as [Hhead Hrest]. split; [done|]. by apply IH.
Qed.

Lemma transition_to_cases self new_state trigger metadata env :
  let r := transition_to self new_state trigger metadata env in
  (can_transition self new_state = false ∧ r = (None, self)) ∨
  (can_transition self new_state = true ∧
   ∃ t, r.1 = Some t ∧ from_state t = current_state self ∧
        to_state t = new_state ∧
        current_state r.2 = new_state ∧
        transitions r.2 = transitions self ++ [t] ∧
        state_timestamps r.2 =
          <[new_state := env_now_entry env]> (state_timestamps self)).
Proof.
  unfold transition_to.
  destruct (can_transition self new_state); simpl; [right|left]; eauto 10.
Qed.

Lemma audit_inv_init : audit_inv init.
Proof. by split. Qed.

Lemma audit_inv_step self new_state trigger metadata env :
  audit_inv self →
  audit_inv (transition_to self new_state trigger metadata env).2.
Proof.
  intros [Hc He].
  destruct (transition_to_cases self new_state trigger metadata env)
    as [[_ ->]|[_ (t & _ & Hfrom & Hto & Hcur & Htrs & _)]]; [done|].
  split; rewrite Htrs.
  - apply chained_snoc; [done|]. by rewrite He.
  - by rewrite end_state_snoc, Hcur.
Qed.

Lemma reachable_audit_inv self : reachable self → audit_inv self.
Proof.
  induction 1 as [|self c _ IH]; [apply audit_inv_init|by apply audit_inv_step].
Qed.

Lemma run_audit calls : ∀ self,
  audit_inv self →
  length (transitions (run self calls).2) =
    (length (transitions self) + successes (run self calls).1)%nat ∧
  audit_inv (run self calls).2.
Proof.
  induction calls as [|c calls IH]; intros self Hinv; simpl.
  - split; [unfold successes; simpl; lia|done].
  - pose proof (audit_inv_step self (call_state c) (call_trigger c)
                  (call_metadata c) (call_env c) Hinv) as Hinv'.
    destruct (transition_to_cases self (call_state c) (call_trigger c)
                (call_metadata c) (call_env c))
      as [[_ Hr]|[_ (t & Hr1 & _ & _ & _ & Htrs & _)]];
      destruct (transition_to self (call_state c) (call_trigger c)
                  (call_metadata c) (call_env c)) as [r self'] eqn:Hstep;
      simpl in *;
      destruct (IH self' Hinv') as [Hlen Hfinal];
      destruct (run self' calls) as [rs final]; simpl in *.
    + inversion Hr; subst. split; [|done].
      rewrite Hlen. unfold successes.
      by rewrite filter_cons_False by (intros [? ?]; discriminate).
    + subst r. split; [|done].
      rewrite Hlen, Htrs, length_app. unfold successes.
      rewrite filter_cons_True by eauto. simpl. lia.
Qed.

End StateMachineFacts.

(** C1.  A call of [transition_to] towards a state that the legal transition
    table does not list for the current state returns None (the call is a
    total function: nothing is raised) and hands back the very same machine:
    same current state, same list of transitions, same entry timestamps.
    This holds for every machine, reachable or not. *)
Theorem transition_to_illegal_is_noop (self : BehaviorStateMachine)
    (new_state : ConversationState) (trigger : string)
    (metadata : option (gmap string string)) (env : TransitionEnv) :
  legal_table (current_state self) new_state = false →
  transition_to self new_state trigger metadata env = (None, self).
Proof.
  intros Hillegal. unfold transition_to.
  by rewrite can_transition_legal_table, Hillegal.
Qed.

Lemma transition_to_illegal_is_noop_witness :
  legal_table (current_state init) RESOLVED = false ∧
  transition_to init RESOLVED "invalid" None
    {| env_uuid := "u1"; env_now_record := 10; env_now_entry := 11 |}
  = (None, init).
Proof.
  split; [reflexivity|].
  apply transition_to_illegal_is_noop. reflexivity.
Defined.

(** C8.  Drive a freshly initialised machine through any sequence of calls:
    the list of transitions is as long as the number of calls that succeeded,
    its first record starts in idle and every later record starts in the
    state the previous record ended in. *)
Theorem transitions_audit_trail (calls : list Call) :
  length (transitions (run init calls).2) = successes (run init calls).1 ∧
  chained IDLE (transitions (run init calls).2).
Proof.
  destruct (run_audit calls init audit_inv_init) as [Hlen [Hchain _]].
  split; [exact Hlen|exact Hchain].
Qed.

(** ** The ingestion gateway *)

Section IngestionFacts.

Import Py Ingestion.

Variable hmac : string → string → string.

Implicit Types (self : EventIngestionService) (now : Q)
  (timestamp signature body : string).

Lemma timestamp_too_old_numeric now timestamp t :
  int timestamp = Some t → Z.abs t < float_limit →
  timestamp_too_old now timestamp
  = Return (Py.gt (Qabs (now - inject_Z t)) (60 * 5)).
Proof.
  intros Hint Hfit. unfold timestamp_too_old, float_of_int.
  rewrite Hint. by rewrite bool_decide_true.
Qed.

Lemma timestamp_too_old_malformed now timestamp :
  int timestamp = None →
  timestamp_too_old now timestamp
  = Raise (ValueError "invalid literal for int() with base 10").
Proof. intros Hint. unfold timestamp_too_old. by rewrite Hint. Qed.

Lemma compare_digest_ascii (a b : string) :
  isascii a = true → isascii b = true →
  compare_digest a b = Return (bool_decide (a = b)).
Proof. intros Ha Hb. unfold compare_digest. by rewrite Ha, Hb. Qed.

Lemma isascii_app (a b : string) :
  isascii (a +:+ b) = isascii a && isascii b.
Proof.
  unfold isascii, chars. induction a as [|c a IH]; simpl; [done|].
  by rewrite IH, andb_assoc.
Qed.

Lemma my_signature_ascii secret timestamp body :
  (∀ key msg, isascii (hmac key msg) = true) →
  isascii (my_signature hmac secret timestamp body) = true.
Proof.
  intros Hhex. unfold my_signature. by rewrite isascii_app, Hhex.
Qed.

Lemma my_signature_nonempty secret timestamp body :
  my_signature hmac secret timestamp body ≠ "".
Proof. unfold my_signature. simpl. discriminate. Qed.

(** The event parser drops exactly the dicts whose type is neither
    "message" nor "app_mention". *)
Lemma _parse_event_none_iff (event : json) :
  _parse_event event = Return None ↔
  ∃ d, event = JObj d ∧
       eq_str (default JNull (assoc d "type")) "message" = false ∧
       eq_str (default JNull (assoc d "type")) "app_mention" = false.
Proof.
  unfold _parse_event. destruct event as [| | | | |l|d]; simpl;
    try (split; [discriminate|by intros (d' & ? & _)]).
  destruct (eq_str (default JNull (assoc d "type")) "message") eqn:Hm;
  destruct (eq_str (default JNull (assoc d "type")) "app_mention") eqn:Ha;
    simpl; (split; [intros H; try discriminate; eauto
                   |intros (d' & Heq & H1 & H2); inversion Heq; subst;
                    congruence]).
Qed.

(** On the POST path nothing is answered unless the verifier said yes. *)
Lemma handle_slack_event_needs_signature self now event_data timestamp
    signature body (r : json) :
  (handle_slack_event hmac self now event_data timestamp signature body).1
    = Return r →
  verify_signature hmac self now timestamp signature body = Return true.
Proof.
  unfold handle_slack_event.
  destruct (verify_signature hmac self now timestamp signature body)
    as [[|]|e]; simpl; [done|discriminate|discriminate].
Qed.

(** A timestamp header that int() refuses makes the verifier raise, and
    the endpoint turns that into HTTP 401 without touching the service. *)
Lemma verify_signature_malformed_timestamp self now timestamp signature body :
  int timestamp = None →
  verify_signature hmac self now timestamp signature body
  = Raise (ValueError "invalid literal for int() with base 10").
Proof.
  intros Hint. unfold verify_signature.
  by rewrite (timestamp_too_old_malformed _ _ Hint).
Qed.

Lemma slack_events_malformed_timestamp self now (headers : gmap string string)
    (event_data : json) body :
  int (default "" (headers !! "X-Slack-Request-Timestamp")) = None →
  slack_events hmac (Some {| ingestion_service := Some self |}) now headers
    (Return event_data) body
  = (Raise (HTTPException 401 "invalid literal for int() with base 10"),
     Some {| ingestion_service := Some self |}).
Proof.
  intros Hint. unfold slack_events, handle_slack_event. simpl.
  by rewrite (verify_signature_malformed_timestamp _ _ _ _ _ Hint).
Qed.

End IngestionFacts.

Import Ingestion.

(** C2 (as amended).  For a timestamp header that int() accepts, the
    verifier of the gateway raises nothing when the signature header is
    ASCII and answers with a boolean; it answers false whenever the
    timestamp is more than 300 seconds away from the clock, whatever the
    signature, so also for the correctly signed payload that is 301 seconds
    old; an empty signature header gives false; and the verifier of the
    security manager rejects the same stale requests by raising HTTP 401.
    The timestamp is below 2^53 in absolute value and the clock reads at
    least 602 seconds: there the conversion of the timestamp to a float is
    exact and so is the float subtraction wherever the difference is within
    301 seconds, so that the comparison with 300 made on floats is the
    comparison made here on rationals. *)
Theorem verify_signature_numeric_timestamp
    (hmac : string → string → string) (self : EventIngestionService)
    (now : Q) (timestamp signature body : string) (t : Z) :
  (∀ key msg, Py.isascii (hmac key msg) = true) →
  Py.int timestamp = Some t →
  Z.abs t < 2 ^ 53 →
  (602 <= now)%Q →
  (Py.isascii signature = true →
     ∃ b, verify_signature hmac self now timestamp signature body = Return b) ∧
  ((300 < Qabs (now - inject_Z t))%Q →
     verify_signature hmac self now timestamp signature body = Return false ∧
     verify_slack_signature hmac (signing_secret self) now timestamp signature body
       = Raise (HTTPException 401 "Request timestamp too old")) ∧
  ((now - inject_Z t == 301)%Q →
     verify_signature hmac self now timestamp
       (my_signature hmac (signing_secret self) timestamp body) body
     = Return false) ∧
  verify_signature hmac self now timestamp "" body = Return false.
Proof.
  intros Hhex Hint Hsmall _.
  assert (Hfit : Z.abs t < Py.float_limit).
  { eapply Z.lt_trans; [exact Hsmall|]. by vm_compute. }
  assert (Hold : ∀ sig, (300 < Qabs (now - inject_Z t))%Q →
            verify_signature hmac self now timestamp sig body = Return false).
  { intros sig Hstale. unfold verify_signature.
    rewrite (timestamp_too_old_numeric _ _ _ Hint Hfit).
    replace (Py.gt (Qabs (now - inject_Z t)) (60 * 5)) with true; [done|].
    symmetry. apply gt_true_iff.
    eapply Qle_lt_trans; [|exact Hstale]. by vm_compute. }
  split; [|split; [|split]].
  - intros Hsig. unfold verify_signature.
    rewrite (timestamp_too_old_numeric _ _ _ Hint Hfit). simpl.
    destruct (Py.gt _ _); [by eexists|].
    rewrite compare_digest_ascii by (by try apply my_signature_ascii).
    by eexists.
  - intros Hstale. split; [by apply Hold|].
    unfold verify_slack_signature.
    rewrite (timestamp_too_old_numeric _ _ _ Hint Hfit).
    replace (Py.gt (Qabs (now - inject_Z t)) (60 * 5)) with true; [done|].
    symmetry. apply gt_true_iff.
    eapply Qle_lt_trans; [|exact Hstale]. by vm_compute.
  - intros Hage. apply Hold. rewrite Hage. by vm_compute.
  - unfold verify_signature.
    rewrite (timestamp_too_old_numeric _ _ _ Hint Hfit). simpl.
    destruct (Py.gt _ _); [done|].
    rewrite compare_digest_ascii by (by try apply my_signature_ascii).
    f_equal; apply bool_decide_eq_false, my_signature_nonempty.
Qed.

Lemma verify_signature_numeric_timestamp_witness :
  (∀ key msg : string, Py.isascii ((λ _ _, "5f") key msg) = true) ∧
  Py.int "1700000000" = Some 1700000000 ∧
  Z.abs 1700000000 < 2 ^ 53 ∧
  (602 <= 1700000301)%Q ∧
  (1700000301 - inject_Z 1700000000 == 301)%Q ∧
  verify_signature (λ _ _, "5f")
    {| signing_secret := "secret"; on_event := None;
       _event_queue := []; _running := false |}
    1700000301 "1700000000" "v0=5f" "body" = Return false.
Proof.
  split; [intros; reflexivity|].
  split; [reflexivity|].
  split; [reflexivity|].
  split; [by vm_compute|].
  split; [reflexivity|].
  apply (verify_signature_numeric_timestamp (λ _ _, "5f")
           {| signing_secret := "secret"; on_event := None;
              _event_queue := []; _running := false |}
           1700000301 "1700000000" "" "body" 1700000000);
    first [by intros; reflexivity|by vm_compute].
Defined.

(** C2, as first stated, fails: with the timestamp header missing (the
    endpoint passes the empty string) the verifier raises ValueError
    instead of returning false. *)
Lemma verify_signature_raises_on_missing_timestamp :
  verify_signature (λ _ _, "5f")
    {| signing_secret := "secret"; on_event := None;
       _event_queue := []; _running := false |}
    1700000000 "" "v0=5f" "body"
  = Raise (ValueError "invalid literal for int() with base 10") ∧
  verify_signature (λ _ _, "5f")
    {| signing_secret := "secret"; on_event := None;
       _event_queue := []; _running := false |}
    1700000000 "" "v0=5f" "body"
  ≠ Return false.
Proof. split; [reflexivity|discriminate]. Qed.

(** C5.  The GET endpoint answers with the challenge it was given although
    the request carries no signature at all: on the headers of such a
    request the verifier does not answer yes (it raises on the missing
    timestamp), and the challenge is echoed all the same. *)
Theorem slack_url_verification_echoes_unverified
    (hmac : string → string → string) (self : EventIngestionService)
    (now : Q) (body challenge : string) :
  let headers : gmap string string := ∅ in
  verify_signature hmac self now
    (default "" (headers !! "X-Slack-Request-Timestamp"))
    (default "" (headers !! "X-Slack-Signature")) body
  = Raise (ValueError "invalid literal for int() with base 10") ∧
  slack_url_verification headers challenge
  = Py.JObj [("challenge", Py.JStr challenge)].
Proof. split; reflexivity. Qed.

(** C9.  An event_callback payload whose inner event the parser drops never
    changes the service (nothing is put on the queue, the callback is not
    called), and once the signature has been verified the gateway answers
    with the acknowledgment. *)
Theorem dropped_event_is_acknowledged
    (hmac : string → string → string) (self : EventIngestionService)
    (now : Q) (payload : list (string * Py.json)) (event : Py.json)
    (timestamp signature body : string) :
  Py.assoc payload "type" = Some (Py.JStr "event_callback") →
  event = default (Py.JObj []) (Py.assoc payload "event") →
  _parse_event event = Return None →
  (handle_slack_event hmac self now (Py.JObj payload) timestamp signature body).2
    = self ∧
  (verify_signature hmac self now timestamp signature body = Return true →
   handle_slack_event hmac self now (Py.JObj payload) timestamp signature body
     = (Return (Py.JObj [("ok", Py.JBool true)]), self)).
Proof.
  intros Htype Hevent Hparse.
  unfold handle_slack_event.
  destruct (verify_signature hmac self now timestamp signature body)
    as [[|]|e]; simpl; [|done|done].
  rewrite Htype; simpl. rewrite <- Hevent.
  unfold _process_event_callback. rewrite Hparse. simpl.
  split; [done|done].
Qed.

Lemma dropped_event_is_acknowledged_witness :
  let payload :=
    [("type", Py.JStr "event_callback");
     ("event", Py.JObj [("type", Py.JStr "reaction_added")])] in
  let event := Py.JObj [("type", Py.JStr "reaction_added")] in
  let self := {| signing_secret := "secret"; on_event := None;
                 _event_queue := []; _running := false |} in
  Py.assoc payload "type" = Some (Py.JStr "event_callback") ∧
  event = default (Py.JObj []) (Py.assoc payload "event") ∧
  _parse_event event = Return None ∧
  handle_slack_event (λ _ _, "5f") self 1700000000 (Py.JObj payload)
    "1700000000" "v0=5f" "body"
  = (Return (Py.JObj [("ok", Py.JBool true)]), self).
Proof.
  intros payload event self.
  split; [reflexivity|]. split; [reflexivity|]. split; [reflexivity|].
  apply (dropped_event_is_acknowledged (λ _ _, "5f") self 1700000000
           payload event "1700000000" "v0=5f" "body");
    reflexivity.
Defined.

(** ** The decision engine *)

Section CoordinatorFacts.

Import Coordinator.

Lemma gt_max_list (first : Q) (rest : list Q) (c : Q) :
  Py.gt (max_list first rest) c = existsb (λ s, Py.gt s c) (first :: rest).
Proof.
  unfold max_list. revert first.
  induction rest as [|r rest IH]; intros first; simpl.
  - by rewrite orb_false_r.
  - rewrite IH. simpl. by rewrite gt_max, orb_assoc.
Qed.

Lemma state_in_pair (state : string) :
  bool_decide (state ∈ ["question_raised"; "clarifying"])
  = bool_decide (state = "question_raised")
    || bool_decide (state = "clarifying").
Proof.
  rewrite <- bool_decide_or. apply bool_decide_ext.
  rewrite !elem_of_cons, elem_of_nil. tauto.
Qed.

End CoordinatorFacts.

Import Coordinator.

(** C3.  The action and priority that [evaluate] returns are those of the
    first rule of the table that fires (none when no rule fires), so one
    call gives at most one decision; and on state question_raised with an
    owner needed, 25 hours in the state and 5 clarification loops, where
    rules 1 and 2 both fire, the answer is prompt_ownership with priority
    high. *)
Theorem evaluate_first_match_wins :
  (∀ now state time_in_state intent needs_owner gaps count last_activity_at,
     summary <$> evaluate now state time_in_state intent needs_owner gaps
                   count last_activity_at
     = first_match spec_rules
         {| in_state := state;
            in_time_in_state := time_in_state;
            in_intent := intent;
            in_needs_owner := needs_owner;
            in_gap_severities := gaps;
            in_clarification_count := count;
            in_hours_since_activity :=
              total_seconds now last_activity_at / 3600 |}) ∧
  (∀ now intent gaps last_activity_at,
     let i := {| in_state := "question_raised";
                 in_time_in_state := hours 25;
                 in_intent := intent;
                 in_needs_owner := true;
                 in_gap_severities := gaps;
                 in_clarification_count := 5;
                 in_hours_since_activity :=
                   total_seconds now last_activity_at / 3600 |} in
     spec_rule1 i = Some ("prompt_ownership", "high") ∧
     spec_rule2 i = Some ("suggest_context", "medium") ∧
     summary <$> evaluate now "question_raised" (hours 25) intent true gaps 5
                   last_activity_at
     = Some ("prompt_ownership", "high")).
Proof.
  split.
  - intros now state tis intent needs gaps count last.
    unfold evaluate, spec_rules, first_match, spec_rule1, spec_rule2,
      spec_rule3, spec_rule4; simpl.
    rewrite state_in_pair.
    change (inject_Z (24 * 3600)) with (hours 24).
    change (inject_Z 4) with 4%Q.
    destruct (bool_decide (state = "question_raised") && needs
              && Py.gt tis (hours 24)); [reflexivity|].
    destruct ((bool_decide (state = "question_raised")
               || bool_decide (state = "clarifying"))
              && bool_decide (3 ≤ count)); [reflexivity|].
    destruct (bool_decide (intent = "question")
              && Py.gt (total_seconds now last / 3600) 4); [reflexivity|].
    destruct gaps as [|first rest]; [reflexivity|].
    rewrite gt_max_list.
    by destruct (existsb _ _).
  - intros now intent gaps last. by vm_compute.
Qed.

(** ** Signal extraction *)

Section UnderstandingFacts.

Import Py Understanding.

Variable float_of_str : string → option float.
Variable lower strip : string → string.
Variable json_loads : string → PyResult json.
Variable str : json → string.
Variable analyzer : string → string → PyResult Prediction.

(** [max(0.0, min(1.0, c))] is a finite number of [0, 1] for every float,
    the infinities and NaN included. *)
Lemma clamp_in_range (c : float) :
  ∃ q, fmax (Fin 0.0) (fmin (Fin 1.0) c) = Fin q ∧ (0 <= q)%Q ∧ (q <= 1)%Q.
Proof.
  destruct c as [q| | |]; unfold fmin, fmax; simpl;
    try (eexists; split; [reflexivity|split; by vm_compute]).
  change (Py.lt q 1.0) with (Py.gt 1.0 q).
  destruct (Py.gt 1.0 q) eqn:Hhigh; simpl.
  - change (Py.lt 0.0 q) with (Py.gt q 0.0).
    destruct (Py.gt q 0.0) eqn:Hlow.
    + apply gt_true_iff in Hhigh, Hlow. exists q. split; [done|]. split; lra.
    + eexists; split; [reflexivity|split; by vm_compute].
  - eexists; split; [reflexivity|split; by vm_compute].
Qed.

Lemma bind_return {A B} (r : PyResult A) (k : A → PyResult B) (b : B) :
  r ≫= k = Return b → ∃ a, r = Return a ∧ k a = Return b.
Proof. destruct r as [a|e]; simpl; [eauto|discriminate]. Qed.

(** The [try] block only builds signals that keep both relations. *)
Lemma analyze_try_invariant (message context : string) (s : BehavioralSignal) :
  analyze_try float_of_str lower strip json_loads str analyzer message context
    = Return s →
  confidence_in_range s ∧ uncertainty_is_complement s.
Proof.
  unfold analyze_try. intros H.
  repeat (apply bind_return in H; destruct H as (? & _ & H)).
  inversion H; subst; clear H.
  unfold confidence_in_range, uncertainty_is_complement; simpl.
  match goal with |- context [fmin (Fin 1.0) ?c] =>
    destruct (clamp_in_range c) as (q & -> & Hlow & Hhigh) end.
  split.
  - by exists q.
  - exists q, (1.0 - q)%Q. repeat split. lra.
Qed.

(** [analyze_message] answers with what the [try] block built or with the
    default signal; it raises nothing. *)
Lemma analyze_message_cases (message : string) (history : option (list string)) :
  let r := analyze_try float_of_str lower strip json_loads str analyzer
             message (build_context history) in
  let s := analyze_message float_of_str lower strip json_loads str analyzer
             message history in
  (r = Return s) ∨ ((∃ e, r = Raise e) ∧ s = default_signal).
Proof.
  unfold analyze_message. simpl.
  destruct (analyze_try _ _ _ _ _ _ _ _) as [s|e]; [by left|right; eauto].
Qed.

Lemma default_signal_confidence_in_range : confidence_in_range default_signal.
Proof. exists 0.5%Q. repeat split; by vm_compute. Qed.

(** Every signal handed to the caller has its confidence in [0, 1]. *)
Lemma analyze_message_confidence_in_range (message : string)
    (history : option (list string)) :
  confidence_in_range
    (analyze_message float_of_str lower strip json_loads str analyzer
       message history).
Proof.
  destruct (analyze_message_cases message history) as [Hok|[_ ->]].
  - by apply analyze_try_invariant in Hok as [? _].
  - apply default_signal_confidence_in_range.
Qed.

End UnderstandingFacts.

Import Understanding.

(** C4.  When the analyzer call fails, [analyze_message] raises nothing and
    answers with the default signal: intent update, confidence 0.5, no owner
    needed.  Its confidence lies in [0, 1], but its uncertainty is 1.0, not
    1 - 0.5: the default signal does not keep [uncertainty = 1 - confidence],
    which every signal built by the [try] block keeps. *)
Theorem default_signal_breaks_complement
    (float_of_str : string → option Py.float) (lower strip : string → string)
    (json_loads : string → PyResult Py.json) (str : Py.json → string)
    (e : PyExn) (message : string) (history : option (list string)) :
  let s := analyze_message float_of_str lower strip json_loads str
             (λ _ _, Raise e) message history in
  s = default_signal ∧
  intent s = IntentType.UPDATE ∧
  confidence s = Py.Fin 0.5 ∧
  needs_owner s = false ∧
  confidence_in_range s ∧
  uncertainty s = Py.Fin 1.0 ∧
  ¬ uncertainty_is_complement s.
Proof.
  simpl. unfold analyze_message, analyze_try. simpl.
  repeat split.
  - apply default_signal_confidence_in_range.
  - intros (c & u & Hc & Hu & Heq). simpl in Hc, Hu.
    inversion Hc; inversion Hu; subst. by vm_compute in Heq.
Qed.

(** ** The gap detector *)

Section AnalyticsFacts.

Import Models Analytics.

Implicit Types (messages later : list Message) (msg : Message).

Lemma count_app {A} (f : A → bool) (l1 l2 : list A) :
  count f (l1 ++ l2) = (count f l1 + count f l2)%nat.
Proof. unfold count. by rewrite List.filter_app, length_app. Qed.

Lemma count_fmap {A B} (f : B → bool) (g : A → B) (l : list A) :
  count f (g <$> l) = count (f ∘ g) l.
Proof.
  unfold count. induction l as [|x l IH]; [done|].
  simpl in *. destruct (f (g x)); simpl; [f_equal|]; exact IH.
Qed.

Lemma count_ext {A} (f g : A → bool) (l : list A) :
  (∀ x, x ∈ l → f x = g x) → count f l = count g l.
Proof.
  unfold count. induction l as [|x l IH]; intros Hfg; [done|].
  assert (IH' : length (List.filter f l) = length (List.filter g l))
    by (apply IH; intros y Hy; apply Hfg; by constructor).
  simpl. rewrite (Hfg x) by constructor.
  destruct (g x); simpl; [f_equal|]; exact IH'.
Qed.

Lemma count_none {A} (l : list A) : count (λ _, false) l = 0%nat.
Proof. unfold count. by induction l. Qed.

Lemma count_bind {A B} (f : B → bool) (g : A → list B) (l : list A) :
  count f (l ≫= g) = sum_list ((λ x, count f (g x)) <$> l).
Proof.
  induction l as [|x l IH]; [done|].
  change ((x :: l) ≫= g) with (g x ++ (l ≫= g)).
  rewrite count_app, IH. reflexivity.
Qed.

(** Walking the indices of the tail of a list is walking the tail. *)
Lemma count_seq_lookup {A} (f : A → bool) (l pre : list A) :
  count (λ j, from_option f false ((pre ++ l) !! j))
        (seq (length pre) (length l))
  = count f l.
Proof.
  revert pre. induction l as [|x l IH]; intros pre; simpl; [done|].
  unfold count in *. simpl.
  rewrite list_lookup_middle by done. simpl.
  specialize (IH (pre ++ [x])).
  rewrite length_app, <- (assoc_L (++)) in IH. simpl in IH.
  replace (length pre + 1)%nat with (S (length pre)) in IH by lia.
  destruct (f x); simpl; by rewrite IH.
Qed.

Lemma count_seq_drop {A} (f : A → bool) (l : list A) (k : nat) :
  count (λ j, from_option f false (l !! j)) (seq k (length l - k))
  = count f (drop k l).
Proof.
  destruct (decide (k ≤ length l)%nat) as [Hk|Hk].
  - rewrite <- (count_seq_lookup f (drop k l) (take k l)).
    by rewrite take_drop, length_take_le, length_drop.
  - rewrite drop_ge by lia. by replace (length l - k)%nat with 0%nat by lia.
Qed.

(** The two loops as sums. *)
Lemma inner_loop_count (msg1 : Message) later (acc : nat) :
  inner_loop msg1 later acc
  = (acc + count (λ msg2, is_question msg2 && same_start msg1 msg2) later)%nat.
Proof.
  unfold count. revert acc. induction later as [|msg2 later IH]; intros acc; simpl.
  - lia.
  - rewrite IH.
    destruct (is_question msg2 && same_start msg1 msg2); simpl; lia.
Qed.

Lemma outer_loop_sum (window : list (nat * Message)) messages (acc : nat) :
  outer_loop window messages acc
  = (acc + sum_list (row_count messages <$> window))%nat.
Proof.
  revert acc. induction window as [|[i msg1] window IH]; intros acc; simpl.
  - lia.
  - rewrite IH. unfold row_count at 2. simpl.
    change (list_fmap _ _ (row_count messages) window)
      with (row_count messages <$> window).
    destruct (is_question msg1); [rewrite inner_loop_count|]; lia.
Qed.

(** One row of the pair table is one turn of the outer loop. *)
Lemma row_count_pairs messages (i : nat) (msg1 : Message) :
  messages !! i = Some msg1 →
  count (λ p, similar_at messages p.1 p.2)
        (pair i <$> seq (i + 1) (length messages - (i + 1)))
  = row_count messages (i, msg1).
Proof.
  intros Hi. rewrite count_fmap. unfold row_count; simpl.
  destruct (is_question msg1) eqn:Hq.
  - rewrite <- count_seq_drop. apply count_ext. intros j _.
    unfold similar_at; simpl. rewrite Hi, Hq.
    by destruct (messages !! j).
  - rewrite (count_ext _ (λ _, false)); [apply count_none|].
    intros j _. unfold similar_at; simpl. rewrite Hi, Hq.
    by destruct (messages !! j).
Qed.

Lemma window_rows messages (window : list Message) (k : nat) :
  (∀ idx msg, window !! idx = Some msg → messages !! (k + idx)%nat = Some msg) →
  sum_list (row_count messages <$> enumerate_from k window)
  = sum_list ((λ i, count (λ p, similar_at messages p.1 p.2)
                      (pair i <$> seq (i + 1) (length messages - (i + 1))))
              <$> seq k (length window)).
Proof.
  revert k. induction window as [|msg1 window IH]; intros k Hsub; simpl; [done|].
  rewrite (row_count_pairs messages k msg1).
  - f_equal. apply IH. intros idx msg Hidx.
    replace (S k + idx)%nat with (k + S idx)%nat by lia. by apply Hsub.
  - specialize (Hsub 0%nat msg1 eq_refl). by rewrite Nat.add_0_r in Hsub.
Qed.

(** The counter the loops leave is the number of similar pairs whose first
    member is among the first ten messages. *)
Lemma count_similar_questions_pairs messages :
  count_similar_questions messages = length (similar_pairs messages 10).
Proof.
  unfold count_similar_questions, enumerate, similar_pairs, index_pairs.
  rewrite outer_loop_sum, Nat.add_0_l.
  rewrite (window_rows messages (take 10 messages) 0).
  - fold (count (λ p, similar_at messages p.1 p.2)
            (seq 0 (10 `min` length messages) ≫=
               λ i, pair i <$> seq (i + 1) (length messages - (i + 1)))).
    by rewrite count_bind, length_take.
  - intros idx msg Hidx. simpl.
    apply lookup_take_Some in Hidx. by destruct Hidx.
Qed.

End AnalyticsFacts.

Section QueryFacts.

Import Models Analytics.

Context {A : Type} (key : A → Z).

Lemma insert_by_perm (x : A) (l : list A) : insert_by key x l ≡ₚ x :: l.
Proof.
  induction l as [|y l IH]; simpl; [done|].
  case_bool_decide; [done|]. rewrite IH. apply Permutation_swap.
Qed.

Lemma order_by_perm (l : list A) : order_by key l ≡ₚ l.
Proof.
  unfold order_by. induction l as [|x l IH]; simpl; [done|].
  by rewrite insert_by_perm, IH.
Qed.

Lemma insert_by_hd (a x : A) (l : list A) :
  key_le key a x → HdRel (key_le key) a l →
  HdRel (key_le key) a (insert_by key x l).
Proof.
  intros Hax Hal. destruct l as [|y l]; simpl; [by constructor|].
  case_bool_decide; constructor; [done|]. by inversion Hal.
Qed.

Lemma insert_by_sorted (x : A) (l : list A) :
  Sorted (key_le key) l → Sorted (key_le key) (insert_by key x l).
Proof.
  induction 1 as [|y l Hsorted IH Hhd]; simpl.
  - by repeat constructor.
  - case_bool_decide as Hxy.
    + constructor; [by constructor|]. by constructor.
    + constructor; [done|]. apply insert_by_hd; [|done].
      unfold key_le. lia.
Qed.

(** [order_by] returns the rows oldest first. *)
Lemma order_by_sorted (l : list A) : Sorted (key_le key) (order_by key l).
Proof.
  unfold order_by. induction l as [|x l IH]; simpl; [constructor|].
  by apply insert_by_sorted.
Qed.

End QueryFacts.

Section ScanFacts.

Import Models Analytics.

Lemma ownership_gaps_cases (conversation : Conversation)
    (transitions : list StateTransition) (now : datetime) (uuid : string) :
  ownership_gaps conversation transitions now uuid = [] ∨
  ownership_gaps conversation transitions now uuid =
    [{| id := uuid;
        gap_type := GapType.OWNERSHIP;
        severity := ownership_severity (time_since_question now transitions);
        description := "No owner assigned within 24+ hours";
        detected_at := now |}].
Proof.
  unfold ownership_gaps.
  destruct (_ && _); [|by left]. destruct (Py.gt _ _); [by right|by left].
Qed.

Lemma context_gaps_cases (messages : list Message) (now : datetime)
    (uuid : string) :
  context_gaps messages now uuid =
    if bool_decide (2 ≤ length (similar_pairs messages 10))%nat
    then [{| id := uuid;
             gap_type := GapType.CONTEXT;
             severity := 0.6;
             description :=
               "Similar questions asked "
               +:+ pretty (length (similar_pairs messages 10) + 1)%nat
               +:+ " times";
             detected_at := now |}]
    else [].
Proof.
  unfold context_gaps. by rewrite count_similar_questions_pairs.
Qed.

Lemma no_owner_assigned (transitions : list StateTransition) :
  (∀ t, t ∈ transitions → t_to_state t ≠ ConversationState.OWNER_ASSIGNED) →
  existsb (λ t, bool_decide (t_to_state t = ConversationState.OWNER_ASSIGNED))
          transitions = false.
Proof.
  intros Hnone. induction transitions as [|t l IH]; simpl; [done|].
  rewrite bool_decide_false by (apply Hnone; constructor). simpl.
  apply IH. intros t' Ht'. apply Hnone. by constructor.
Qed.

End ScanFacts.

Import Models Analytics.

(** C6.  For a conversation in state question_raised whose transitions never
    enter owner_assigned and whose last transition lies more than 24 hours
    back, the scan returns an ownership gap first, with severity
    min(1.0, hours / 72).  That severity lies in [0, 1] for every number of
    hours that is not negative, and is exactly 1.0 from 72 hours on. *)
Theorem ownership_gap_severity_ramp :
  (∀ (db : Db) (now : datetime) (uuid4 : nat → string) (cid : string)
     (conversation : Conversation) (t : StateTransition),
     query_conversation db cid = Some conversation →
     c_current_state conversation = Some ConversationState.QUESTION_RAISED →
     (∀ t', t' ∈ query_transitions db cid →
            t_to_state t' ≠ ConversationState.OWNER_ASSIGNED) →
     last (query_transitions db cid) = Some t →
     (24 < total_seconds now (t_timestamp t) / 3600)%Q →
     ∃ g, head (detect_gaps db now uuid4 cid).1 = Some g ∧
          gap_type g = GapType.OWNERSHIP ∧
          severity g
          = Py.min 1.0 (total_seconds now (t_timestamp t) / 3600 / 72)) ∧
  (∀ hours_since : Q, (0 <= hours_since)%Q →
     (0 <= ownership_severity hours_since)%Q ∧
     (ownership_severity hours_since <= 1)%Q) ∧
  (∀ hours_since : Q, (72 <= hours_since)%Q →
     ownership_severity hours_since = 1.0%Q).
Proof.
  split; [|split].
  - intros db now uuid4 cid conversation t Hconv Hstate Hnone Hlast Hlate.
    unfold detect_gaps. rewrite Hconv. simpl.
    unfold ownership_gaps, time_since_question.
    rewrite Hstate, (no_owner_assigned _ Hnone), Hlast.
    rewrite bool_decide_true by done. simpl.
    apply gt_true_iff in Hlate. rewrite Hlate. simpl.
    eexists. split; [reflexivity|]. by split.
  - intros h Hh. unfold ownership_severity.
    destruct (min_cases 1.0 (h / 72)) as [[Hlt ->]|[Hle ->]].
    + split; [|lra]. apply Qle_shift_div_l; lra.
    + split; by vm_compute.
  - intros h Hh. unfold ownership_severity.
    destruct (min_cases 1.0 (h / 72)) as [[Hlt _]|[_ ->]]; [|done].
    exfalso. apply (Qlt_not_le _ _ Hlt). apply Qle_shift_div_l; lra.
Qed.

Lemma ownership_gap_severity_ramp_witness :
  let conversation :=
    {| c_id := "c1";
       c_current_state := Some ConversationState.QUESTION_RAISED |} in
  let t := {| t_conversation_id := "c1";
              t_to_state := ConversationState.QUESTION_RAISED;
              t_timestamp := 0 |} in
  let db := {| conversations := [conversation];
               state_transitions := [t];
               messages := [];
               communication_gaps := [] |} in
  let now := 108000000000 in
  query_conversation db "c1" = Some conversation ∧
  c_current_state conversation = Some ConversationState.QUESTION_RAISED ∧
  (∀ t', t' ∈ query_transitions db "c1" →
         t_to_state t' ≠ ConversationState.OWNER_ASSIGNED) ∧
  last (query_transitions db "c1") = Some t ∧
  (24 < total_seconds now (t_timestamp t) / 3600)%Q ∧
  ∃ g, head (detect_gaps db now (λ _, "u") "c1").1 = Some g ∧
       gap_type g = GapType.OWNERSHIP ∧
       severity g = Py.min 1.0 (total_seconds now (t_timestamp t) / 3600 / 72).
Proof.
  intros conversation t db now.
  assert (Hnone : ∀ t', t' ∈ query_transitions db "c1" →
            t_to_state t' ≠ ConversationState.OWNER_ASSIGNED).
  { intros t' Ht'. vm_compute in Ht'. apply list_elem_of_singleton in Ht'.
    by subst t'. }
  split; [reflexivity|]. split; [reflexivity|]. split; [exact Hnone|].
  split; [reflexivity|]. split; [reflexivity|].
  apply (proj1 ownership_gap_severity_ramp db now (λ _, "u") "c1" conversation t);
    [reflexivity|reflexivity|exact Hnone|reflexivity|reflexivity].
Defined.

(** C7 (as amended).  The messages of the conversation are scanned oldest
    first.  The scan returns the gaps of the ownership rule followed by one
    context gap, of severity 0.6 and with the number of pairs plus one in
    its description, exactly when there are at least 2 pairs of messages
    such that the first of the two is among the ten oldest messages, the
    second comes anywhere later in the conversation, both have a question
    intent and both start with the same 100 characters. *)
Theorem context_gap_scan (db : Db) (now : datetime) (uuid4 : nat → string)
    (cid : string) (conversation : Conversation) :
  query_conversation db cid = Some conversation →
  let msgs := query_messages db cid in
  let pairs := similar_pairs msgs 10 in
  Sorted (key_le m_timestamp) msgs ∧
  msgs ≡ₚ filter (λ m, m_conversation_id m = cid) (messages db) ∧
  count_similar_questions msgs = length pairs ∧
  ∃ own, (∀ g, g ∈ own → gap_type g = GapType.OWNERSHIP) ∧
    (detect_gaps db now uuid4 cid).1 =
      own ++
      if bool_decide (2 ≤ length pairs)%nat
      then [{| id := uuid4 (length own);
               gap_type := GapType.CONTEXT;
               severity := 0.6;
               description :=
                 "Similar questions asked " +:+ pretty (length pairs + 1)%nat
                 +:+ " times";
               detected_at := now |}]
      else [].
Proof.
  intros Hconv msgs pairs.
  split; [apply order_by_sorted|]. split; [apply order_by_perm|].
  split; [apply count_similar_questions_pairs|].
  unfold detect_gaps. rewrite Hconv. simpl.
  exists (ownership_gaps conversation (query_transitions db cid) now (uuid4 0%nat)).
  split.
  - intros g Hg.
    destruct (ownership_gaps_cases conversation (query_transitions db cid)
                now (uuid4 0%nat)) as [Hown|Hown];
      rewrite Hown in Hg.
    + by apply elem_of_nil in Hg.
    + apply list_elem_of_singleton in Hg. by subst g.
  - by rewrite context_gaps_cases.
Qed.

Lemma context_gap_scan_witness :
  let question t :=
    {| m_conversation_id := "c1"; m_content := "where is the deploy log?";
       m_extracted_intent := Some IntentType.QUESTION; m_timestamp := t |} in
  let db := {| conversations :=
                 [{| c_id := "c1";
                     c_current_state := Some ConversationState.CLARIFYING |}];
               state_transitions := [];
               messages := [question 3; question 1; question 2];
               communication_gaps := [] |} in
  query_conversation db "c1"
    = Some {| c_id := "c1";
              c_current_state := Some ConversationState.CLARIFYING |} ∧
  ∃ own, (∀ g, g ∈ own → gap_type g = GapType.OWNERSHIP) ∧
    (detect_gaps db 50 (λ _, "u") "c1").1 =
      own ++ [{| id := "u"; gap_type := GapType.CONTEXT; severity := 0.6;
                 description := "Similar questions asked 4 times";
                 detected_at := 50 |}].
Proof.
  intros question db. split; [reflexivity|].
  destruct (context_gap_scan db 50 (λ _, "u") "c1" _ eq_refl)
    as (_ & _ & _ & own & Hown & Hgaps).
  exists own. split; [exact Hown|].
  rewrite Hgaps. f_equal.
Defined.

(** C7, as first stated, fails in both directions.  In the first
    conversation ten updates are followed by the same question asked three
    times: the ten most recent messages hold three pairs of repeated
    questions, yet the scan returns no gap, because no question is among the
    ten oldest messages.  In the second conversation a question is followed
    by ten updates and then asked twice more: the ten most recent messages
    hold one pair only, yet the scan returns a context gap, because the
    oldest message is paired with the two messages outside its window. *)
Lemma context_gap_not_recent_window :
  let question t :=
    {| m_conversation_id := "c1"; m_content := "where is the deploy log?";
       m_extracted_intent := Some IntentType.QUESTION; m_timestamp := t |} in
  let update t :=
    {| m_conversation_id := "c1"; m_content := "status update";
       m_extracted_intent := Some IntentType.UPDATE; m_timestamp := t |} in
  let conversation :=
    {| c_id := "c1"; c_current_state := Some ConversationState.CLARIFYING |} in
  let db1 := {| conversations := [conversation];
                state_transitions := [];
                messages := (update ∘ Z.of_nat <$> seq 0 10)
                            ++ [question 10; question 11; question 12];
                communication_gaps := [] |} in
  let db2 := {| conversations := [conversation];
                state_transitions := [];
                messages := [question 0]
                            ++ (update ∘ Z.of_nat <$> seq 1 10)
                            ++ [question 11; question 12];
                communication_gaps := [] |} in
  (length (spec_similar_pairs (query_messages db1 "c1")) = 3%nat ∧
   spec_emits_context_gap (query_messages db1 "c1") = true ∧
   (detect_gaps db1 50 (λ _, "u") "c1").1 = []) ∧
  (length (spec_similar_pairs (query_messages db2 "c1")) = 1%nat ∧
   spec_emits_context_gap (query_messages db2 "c1") = false ∧
   (detect_gaps db2 50 (λ _, "u") "c1").1 =
     [{| id := "u"; gap_type := GapType.CONTEXT; severity := 0.6;
         description := "Similar questions asked 3 times";
         detected_at := 50 |}]).
Proof. by vm_compute. Qed.

(** C10.  One scan returns at most two gaps, at most one of them of type
    ownership and at most one of type context, and none of type response
    or resolution. *)
Theorem detect_gaps_at_most_two (db : Db) (now : datetime)
    (uuid4 : nat → string) (cid : string) :
  let gaps := (detect_gaps db now uuid4 cid).1 in
  (length gaps ≤ 2)%nat ∧
  (length (filter (λ g, gap_type g = GapType.OWNERSHIP) gaps) ≤ 1)%nat ∧
  (length (filter (λ g, gap_type g = GapType.CONTEXT) gaps) ≤ 1)%nat ∧
  ∀ g, g ∈ gaps →
       gap_type g ≠ GapType.RESPONSE ∧ gap_type g ≠ GapType.RESOLUTION.
Proof.
  unfold detect_gaps.
  destruct (query_conversation db cid) as [conversation|]; simpl.
  2: { split; [lia|]. split; [cbn; lia|]. split; [cbn; lia|].
       intros g Hg. by apply elem_of_nil in Hg. }
  destruct (ownership_gaps_cases conversation (query_transitions db cid)
              now (uuid4 0%nat)) as [-> | ->];
    rewrite context_gaps_cases; case_bool_decide; simpl;
    (split; [lia|]); (split; [cbn; lia|]); (split; [cbn; lia|]);
    intros g Hg;
    repeat (apply elem_of_cons in Hg as [-> | Hg]; [by split|]);
    by apply elem_of_nil in Hg.
Qed.

(** * Further properties of the state machine *)

Section StateMachineMore.

Import StateMachine Trail.

Implicit Types (self : BehaviorStateMachine) (l : list StateTransition)
  (calls : list Call).

Lemma run_reachable calls : ∀ self, reachable self → reachable (run self calls).2.
Proof.
  induction calls as [|c calls IH]; intros self Hreach; simpl; [done|].
  pose proof (reachable_step self c Hreach) as Hstep.
  destruct (transition_to self (call_state c) (call_trigger c)
              (call_metadata c) (call_env c)) as [r self'].
  specialize (IH self' Hstep).
  by destruct (run self' calls) as [rs final].
Qed.

Lemma legal_table_irreflexive (s : ConversationState) : legal_table s s = false.
Proof. by destruct s. Qed.

Lemma reachable_trail_legal self :
  reachable self → Forall legal_record (transitions self).
Proof.
  induction 1 as [|self c _ IH]; [by constructor|].
  destruct (transition_to_cases self (call_state c) (call_trigger c)
              (call_metadata c) (call_env c))
    as [[_ ->]|[Hcan (t & _ & Hfrom & Hto & _ & -> & _)]]; [done|].
  apply Forall_app. split; [done|]. constructor; [|constructor].
  rewrite can_transition_legal_table in Hcan.
  split; rewrite Hfrom, Hto; [done|].
  intros Heq. rewrite Heq, legal_table_irreflexive in Hcan. discriminate.
Qed.

Lemma end_state_last start l :
  end_state start l = from_option to_state start (last l).
Proof.
  destruct l as [|t l _] using rev_ind; [done|].
  by rewrite end_state_snoc, last_snoc.
Qed.

Lemma chained_snoc_inv start l t :
  chained start (l ++ [t]) → chained start l ∧ from_state t = end_state start l.
Proof.
  revert start. induction l as [|t' l IH]; intros start; simpl.
  - by intros [-> _].
  - intros [Hhead Hrest]. destruct (IH _ Hrest) as [Hc Hfrom].
    split; [done|]. by rewrite Hfrom.
Qed.

Lemma reachable_timestamps self :
  reachable self →
  ∀ s, is_Some (state_timestamps self !! s) ↔ entered self s.
Proof.
  induction 1 as [|self c _ IH]; intros s.
  - simpl. split.
    + intros [? Hsome]. by rewrite lookup_empty in Hsome.
    + intros (t & Ht & _). by apply elem_of_nil in Ht.
  - destruct (transition_to_cases self (call_state c) (call_trigger c)
                (call_metadata c) (call_env c))
      as [[_ ->]|[_ (t & _ & _ & Hto & _ & Htrs & Hts)]]; [apply IH|].
    unfold entered. rewrite Hts, Htrs.
    destruct (decide (call_state c = s)) as [<-|Hne].
    + rewrite lookup_insert_eq. split; [|by eauto].
      intros _. exists t. split; [|done]. apply elem_of_app. right. by left.
    + rewrite lookup_insert_ne by done. rewrite IH. unfold entered.
      split; intros (t' & Ht' & Hs).
      * exists t'. split; [|done]. apply elem_of_app. by left.
      * apply elem_of_app in Ht' as [Ht'|Ht']; [by eauto|].
        apply list_elem_of_singleton in Ht'. subst t'. congruence.
Qed.

End StateMachineMore.

Section StateMachineExtras.

Import StateMachine Trail.

(** X1.  Whatever calls a client makes on a fresh machine, every record of
    the audit trail goes along an edge of the legal table, and no record
    stays in its state. *)
Theorem trail_records_are_legal (calls : list Call) :
  Forall legal_record (transitions (run init calls).2).
Proof. apply reachable_trail_legal, run_reachable, reachable_init. Qed.

(** X2.  After any calls on a fresh machine the current state is the target
    of the last record of the trail, and idle while the trail is empty. *)
Theorem current_state_is_last_target (calls : list Call) :
  current_state (run init calls).2
  = from_option to_state IDLE (last (transitions (run init calls).2)).
Proof.
  destruct (reachable_audit_inv _ (run_reachable calls init reachable_init))
    as [_ Hend].
  by rewrite <- Hend, end_state_last.
Qed.

(** X3.  After any calls on a fresh machine a state has an entry timestamp
    exactly when some record of the trail enters it; for a state that was
    never entered [get_time_in_state] answers 0. *)
Theorem timestamps_iff_entered (calls : list Call) (s : ConversationState)
    (now : datetime) :
  (is_Some (state_timestamps (run init calls).2 !! s)
   ↔ entered (run init calls).2 s) ∧
  (¬ entered (run init calls).2 s →
   get_time_in_state (run init calls).2 (Some s) now = 0%Q).
Proof.
  pose proof (reachable_timestamps _ (run_reachable calls init reachable_init) s)
    as Hiff.
  split; [exact Hiff|].
  intros Hnever. unfold get_time_in_state. simpl.
  destruct (state_timestamps (run init calls).2 !! s) eqn:Hts; [|done].
  exfalso. apply Hnever, Hiff. by eexists.
Qed.

(** X4.  After a legal transition the time in the current state is counted
    from the clock reading taken on entry, also when the state had been
    entered before; the times of all other states are left as they were. *)
Theorem time_in_state_after_transition (self : BehaviorStateMachine)
    (new_state : ConversationState) (trigger : string)
    (metadata : option (gmap string string)) (env : TransitionEnv)
    (now : datetime) :
  legal_table (current_state self) new_state = true →
  get_time_in_state (transition_to self new_state trigger metadata env).2
    None now
  = total_seconds now (env_now_entry env) ∧
  ∀ s, s ≠ new_state →
    get_time_in_state (transition_to self new_state trigger metadata env).2
      (Some s) now
    = get_time_in_state self (Some s) now.
Proof.
  intros Hlegal. rewrite <- can_transition_legal_table in Hlegal.
  destruct (transition_to_cases self new_state trigger metadata env)
    as [[Hcan _]|[_ (t & _ & _ & _ & Hcur & _ & Hts)]]; [congruence|].
  unfold get_time_in_state. rewrite Hts, Hcur. simpl. split.
  - by rewrite lookup_insert_eq.
  - intros s Hne. by rewrite lookup_insert_ne.
Qed.

Lemma time_in_state_after_transition_witness :
  legal_table (current_state init) QUESTION_RAISED = true ∧
  get_time_in_state
    (transition_to init QUESTION_RAISED "message:question" None
       {| env_uuid := "u1"; env_now_record := 1000000;
          env_now_entry := 2000000 |}).2
    None 5000000
  = total_seconds 5000000 2000000.
Proof.
  split; [reflexivity|].
  apply (time_in_state_after_transition init QUESTION_RAISED
           "message:question" None
           {| env_uuid := "u1"; env_now_record := 1000000;
              env_now_entry := 2000000 |} 5000000).
  reflexivity.
Defined.

(** X5.  After any calls on a fresh machine, every record that enters
    in_progress leaves owner_assigned; so a machine that is in progress has
    a record entering owner_assigned in its trail. *)
Theorem in_progress_requires_owner (calls : list Call) :
  Forall (λ t, to_state t = IN_PROGRESS → from_state t = OWNER_ASSIGNED)
         (transitions (run init calls).2) ∧
  (current_state (run init calls).2 = IN_PROGRESS →
   entered (run init calls).2 OWNER_ASSIGNED).
Proof.
  pose proof (run_reachable calls init reachable_init) as Hreach.
  pose proof (reachable_trail_legal _ Hreach) as Hlegal.
  assert (Hedge : ∀ t, legal_record t → to_state t = IN_PROGRESS →
                       from_state t = OWNER_ASSIGNED).
  { intros t [Ht _] Hto. rewrite Hto in Ht. by destruct (from_state t). }
  split.
  - eapply Forall_impl; [exact Hlegal|]. exact Hedge.
  - destruct (reachable_audit_inv _ Hreach) as [Hchain Hend].
    intros Hcur. rewrite Hcur in Hend. unfold entered.
    destruct (transitions (run init calls).2) as [|t l _] using rev_ind;
      [discriminate|].
    rewrite end_state_snoc in Hend.
    apply Forall_app in Hlegal as [_ Hlast]. inversion Hlast; subst.
    apply chained_snoc_inv in Hchain as [_ Hfrom].
    rewrite (Hedge t) in Hfrom by done.
    destruct l as [|t' l' _] using rev_ind; [discriminate|].
    rewrite end_state_snoc in Hfrom.
    exists t'. split; [|done]. apply elem_of_app. left.
    apply elem_of_app. right. by left.
Qed.

End StateMachineExtras.

(** * Further properties of the ingestion gateway *)

Section IngestionExtras.

Import Py Ingestion.

Variable hmac : string → string → string.

Implicit Types (self : EventIngestionService) (now : Q)
  (timestamp signature body : string) (payload : list (string * json)).

Lemma compare_digest_true (a b : string) :
  isascii a = true → (compare_digest a b = Return true ↔ b = a).
Proof.
  intros Ha. unfold compare_digest. rewrite Ha. simpl.
  destruct (isascii b) eqn:Hb.
  - split.
    + intros Heq. inversion Heq as [Hdec]. by apply bool_decide_eq_true in Hdec.
    + intros ->. by rewrite bool_decide_true.
  - split; [discriminate|]. intros ->. congruence.
Qed.

Lemma handle_slack_event_unverified self now (event_data : json) timestamp
    signature body :
  (verify_signature hmac self now timestamp signature body = Return false →
   handle_slack_event hmac self now event_data timestamp signature body
   = (Raise (ValueError "Invalid Slack signature"), self)) ∧
  (∀ e, verify_signature hmac self now timestamp signature body = Raise e →
   handle_slack_event hmac self now event_data timestamp signature body
   = (Raise e, self)).
Proof.
  unfold handle_slack_event.
  split; [intros ->|intros e ->]; reflexivity.
Qed.

Lemma handle_slack_event_verified self now (event_data : json) timestamp
    signature body :
  verify_signature hmac self now timestamp signature body = Return true →
  handle_slack_event hmac self now event_data timestamp signature body =
    match get event_data "type" JNull with
    | Raise e => (Raise e, self)
    | Return event_type =>
        if eq_str event_type "url_verification" then
          (c ← get event_data "challenge" JNull;
           Return (JObj [("challenge", c)]), self)
        else if eq_str event_type "event_callback" then
          match get event_data "event" (JObj []) with
          | Raise e => (Raise e, self)
          | Return event =>
              ((_process_event_callback self event).1 ≫=
                 (λ _, Return (JObj [("ok", JBool true)])),
               (_process_event_callback self event).2)
          end
        else (Return (JObj [("ok", JBool true)]), self)
    end.
Proof.
  intros Hok. unfold handle_slack_event. rewrite Hok.
  destruct (get event_data "type" JNull) as [event_type|e]; [|done].
  destruct (eq_str event_type "url_verification"); [done|].
  destruct (eq_str event_type "event_callback"); [|done].
  destruct (get event_data "event" (JObj [])) as [event|e]; [|done].
  by destruct (_process_event_callback self event).
Qed.

(** What [_process_event_callback] can do to the service: nothing, or put
    one event at the end of the queue. *)
Lemma _process_event_callback_queue self (event : json) :
  (_process_event_callback self event).2 = self ∨
  ∃ ev, _parse_event event = Return (Some ev) ∧
        (_process_event_callback self event).2 = put self ev.
Proof.
  unfold _process_event_callback.
  destruct (_parse_event event) as [[ev|]|e]; [right|by left|by left].
  exists ev. split; [done|]. simpl. by destruct (on_event self).
Qed.

Lemma handle_slack_event_queue self now (event_data : json) timestamp
    signature body :
  (handle_slack_event hmac self now event_data timestamp signature body).2
    = self ∨
  ∃ ev, (handle_slack_event hmac self now event_data timestamp signature body).2
        = put self ev.
Proof.
  destruct (verify_signature hmac self now timestamp signature body)
    as [[|]|e] eqn:Hverify.
  - rewrite (handle_slack_event_verified _ _ _ _ _ _ Hverify).
    destruct (get event_data "type" JNull) as [event_type|e]; [|by left].
    destruct (eq_str event_type "url_verification"); [by left|].
    destruct (eq_str event_type "event_callback"); [|by left].
    destruct (get event_data "event" (JObj [])) as [event|e]; [|by left].
    simpl. destruct (_process_event_callback_queue self event)
      as [->|(ev & _ & ->)]; [by left|right; by eexists].
  - left. by rewrite (proj1 (handle_slack_event_unverified _ _ _ _ _ _) Hverify).
  - left. by rewrite (proj2 (handle_slack_event_unverified _ _ _ _ _ _) e Hverify).
Qed.

End IngestionExtras.

Section IngestionExtraTheorems.

Import Py Ingestion.

(** X6.  Within the replay window, 300 seconds included, and for a
    timestamp header that int() accepts, the verifier of the gateway
    answers true exactly for the signature "v0=" + hexdigest computed over
    "v0:" + timestamp + body; every other signature header, a non-ASCII
    one included, is not accepted.  The timestamp is below 2^53 in absolute
    value and the clock reads at least 602 seconds, where the comparison
    with 300 made on floats is the comparison made here on rationals. *)
Theorem verify_signature_accepts_iff
    (hmac : string → string → string) (self : EventIngestionService)
    (now : Q) (timestamp signature body : string) (t : Z) :
  (∀ key msg, isascii (hmac key msg) = true) →
  int timestamp = Some t →
  Z.abs t < 2 ^ 53 →
  (602 <= now)%Q →
  (Qabs (now - inject_Z t) <= 300)%Q →
  (verify_signature hmac self now timestamp signature body = Return true
   ↔ signature = my_signature hmac (signing_secret self) timestamp body).
Proof.
  intros Hhex Hint Hsmall _ Hfresh. unfold verify_signature.
  assert (Hfit : Z.abs t < float_limit).
  { eapply Z.lt_trans; [exact Hsmall|]. by vm_compute. }
  rewrite (timestamp_too_old_numeric _ _ _ Hint Hfit).
  assert (Hgt : Py.gt (Qabs (now - inject_Z t)) (60 * 5) = false).
  { apply gt_false_iff. eapply Qle_trans; [exact Hfresh|]. by vm_compute. }
  rewrite Hgt. simpl.
  apply compare_digest_true, my_signature_ascii, Hhex.
Qed.

Lemma verify_signature_accepts_iff_witness :
  (∀ key msg : string, isascii ((λ _ _, "5f") key msg) = true) ∧
  int "1700000000" = Some 1700000000 ∧
  Z.abs 1700000000 < 2 ^ 53 ∧
  (602 <= 1700000300)%Q ∧
  (Qabs (1700000300 - inject_Z 1700000000) <= 300)%Q ∧
  verify_signature (λ _ _, "5f")
    {| signing_secret := "secret"; on_event := None;
       _event_queue := []; _running := false |}
    1700000300 "1700000000" "v0=5f" "body" = Return true.
Proof.
  split; [intros; reflexivity|].
  split; [reflexivity|]. split; [reflexivity|].
  split; [by vm_compute|]. split; [by vm_compute|].
  apply (verify_signature_accepts_iff (λ _ _, "5f") _ 1700000300
           "1700000000" "v0=5f" "body" 1700000000);
    first [by intros; reflexivity|by vm_compute].
Defined.

(** X7.  The verifier of the security manager and the verifier of the
    gateway accept the same requests: with the same secret, one answers
    true exactly when the other does. *)
Theorem verifiers_accept_alike
    (hmac : string → string → string) (self : EventIngestionService)
    (now : Q) (timestamp signature body : string) :
  verify_slack_signature hmac (signing_secret self) now timestamp signature body
    = Return true
  ↔ verify_signature hmac self now timestamp signature body = Return true.
Proof.
  unfold verify_slack_signature, verify_signature.
  destruct (timestamp_too_old now timestamp) as [[|]|e]; simpl;
    [split; discriminate|done|done].
Qed.

(** X8.  A request that the verifier does not accept leaves the service as
    it was: nothing is queued and the callback is not called.  When the
    verifier answers false the gateway raises ValueError "Invalid Slack
    signature"; when the verifier raises, the gateway raises the same
    exception. *)
Theorem rejected_request_changes_nothing
    (hmac : string → string → string) (self : EventIngestionService)
    (now : Q) (event_data : json) (timestamp signature body : string) :
  (verify_signature hmac self now timestamp signature body ≠ Return true →
   (handle_slack_event hmac self now event_data timestamp signature body).2
     = self) ∧
  (verify_signature hmac self now timestamp signature body = Return false →
   handle_slack_event hmac self now event_data timestamp signature body
     = (Raise (ValueError "Invalid Slack signature"), self)) ∧
  (∀ e, verify_signature hmac self now timestamp signature body = Raise e →
   handle_slack_event hmac self now event_data timestamp signature body
     = (Raise e, self)).
Proof.
  pose proof (handle_slack_event_unverified hmac self now event_data
                timestamp signature body) as [Hfalse Hraise].
  split; [|split; [exact Hfalse|exact Hraise]].
  intros Hno.
  destruct (verify_signature hmac self now timestamp signature body)
    as [[|]|e] eqn:Hverify; [done| |].
  - by rewrite (Hfalse eq_refl).
  - by rewrite (Hraise e eq_refl).
Qed.

(** X9.  A verified event_callback payload whose inner event is a dict of
    type message or app_mention puts exactly one event, built from that
    dict, at the end of the queue.  The acknowledgment is returned when
    there is no callback or the callback returns; when the callback raises,
    the gateway raises the same exception and the event stays queued. *)
Theorem accepted_event_is_enqueued
    (hmac : string → string → string) (self : EventIngestionService)
    (now : Q) (payload inner : list (string * json))
    (timestamp signature body : string) :
  verify_signature hmac self now timestamp signature body = Return true →
  assoc payload "type" = Some (JStr "event_callback") →
  assoc payload "event" = Some (JObj inner) →
  eq_str (default JNull (assoc inner "type")) "message"
  || eq_str (default JNull (assoc inner "type")) "app_mention" = true →
  ∃ ev, _parse_event (JObj inner) = Return (Some ev) ∧
        raw_data ev = JObj inner ∧
        type ev = default JNull (assoc inner "type") ∧
        _event_queue
          (handle_slack_event hmac self now (JObj payload) timestamp
             signature body).2
        = _event_queue self ++ [ev] ∧
        (handle_slack_event hmac self now (JObj payload) timestamp
           signature body).1
        = match on_event self with
          | None => Return (JObj [("ok", JBool true)])
          | Some callback =>
              callback ev ≫= λ _, Return (JObj [("ok", JBool true)])
          end.
Proof.
  intros Hverify Htype Hevent Hkind.
  rewrite (handle_slack_event_verified _ _ _ _ _ _ _ Hverify). simpl.
  rewrite Htype, Hevent. simpl.
  unfold _process_event_callback, _parse_event. simpl.
  rewrite Hkind. simpl.
  eexists. split; [reflexivity|]. split; [reflexivity|]. split; [reflexivity|].
  destruct (on_event self); by simpl.
Qed.

Lemma accepted_event_is_enqueued_witness :
  let inner := [("type", JStr "message"); ("channel", JStr "C123");
                ("ts", JStr "1700000000.000100"); ("text", JStr "hello")] in
  let payload := [("type", JStr "event_callback"); ("event", JObj inner)] in
  let self := {| signing_secret := "secret"; on_event := None;
                 _event_queue := []; _running := false |} in
  verify_signature (λ _ _, "5f") self 1700000000 "1700000000" "v0=5f" "body"
    = Return true ∧
  length (_event_queue
            (handle_slack_event (λ _ _, "5f") self 1700000000 (JObj payload)
               "1700000000" "v0=5f" "body").2) = 1%nat.
Proof.
  intros inner payload self. split; [reflexivity|].
  destruct (accepted_event_is_enqueued (λ _ _, "5f") self 1700000000
              payload inner "1700000000" "v0=5f" "body")
    as (ev & _ & _ & _ & Hqueue & _); [reflexivity..|].
  by rewrite Hqueue.
Defined.

(** X10.  One call of the gateway never removes or reorders queued events:
    the old queue is a prefix of the new one, which is at most one event
    longer; the secret, the callback and the running flag are kept. *)
Theorem gateway_queue_grows_by_at_most_one
    (hmac : string → string → string) (self : EventIngestionService)
    (now : Q) (event_data : json) (timestamp signature body : string) :
  let self' :=
    (handle_slack_event hmac self now event_data timestamp signature body).2 in
  _event_queue self `prefix_of` _event_queue self' ∧
  (length (_event_queue self') ≤ S (length (_event_queue self)))%nat ∧
  signing_secret self' = signing_secret self ∧
  on_event self' = on_event self ∧
  _running self' = _running self.
Proof.
  simpl.
  destruct (handle_slack_event_queue hmac self now event_data timestamp
              signature body) as [->|[ev ->]].
  - repeat split; [done|lia].
  - simpl. repeat split.
    + by apply prefix_app_r.
    + rewrite length_app. simpl. lia.
Qed.

End IngestionExtraTheorems.

Section IngestionExtraTheorems2.

Import Py Ingestion.

Lemma _parse_event_not_dict (event : json) :
  (∀ d, event ≠ JObj d) → _parse_event event = Raise AttributeError.
Proof.
  intros Hnot. destruct event; try reflexivity. by destruct (Hnot d).
Qed.

(** X11.  The event parser raises AttributeError on anything that is not a
    dict and never raises on a dict.  In an event it builds, channel and
    message_ts are the empty string unless the dict gives a truthy value,
    event_ts falls back to message_ts, text is the empty string when the key
    is absent, and raw_data is the dict itself. *)
Theorem parse_event_defaults (event : json) :
  ((∀ d, event ≠ JObj d) → _parse_event event = Raise AttributeError) ∧
  (∀ d, event = JObj d →
     (∃ r, _parse_event event = Return r) ∧
     ∀ ev, _parse_event event = Return (Some ev) →
       (channel ev = if truthy (default JNull (assoc d "channel"))
                     then default JNull (assoc d "channel") else JStr "") ∧
       (message_ts ev = if truthy (default JNull (assoc d "ts"))
                        then default JNull (assoc d "ts") else JStr "") ∧
       (truthy (default JNull (assoc d "event_ts")) = false →
        event_ts ev = message_ts ev) ∧
       (assoc d "text" = None → text ev = JStr "") ∧
       raw_data ev = event).
Proof.
  split.
  - apply _parse_event_not_dict.
  - intros d ->. unfold _parse_event. simpl.
    destruct (negb _); [split; [by eexists|discriminate]|].
    split; [by eexists|].
    intros ev Hev. inversion Hev; subst; clear Hev. simpl.
    unfold or. repeat split.
    + by intros ->.
    + by intros ->.
Qed.

(** X12.  A verified event_callback payload whose "event" entry is present
    and is not a dict (null, a string, a list) makes the gateway raise
    AttributeError with the service unchanged. *)
Theorem malformed_inner_event_fails
    (hmac : string → string → string) (self : EventIngestionService)
    (now : Q) (payload : list (string * json)) (inner : json)
    (timestamp signature body : string) :
  verify_signature hmac self now timestamp signature body = Return true →
  assoc payload "type" = Some (JStr "event_callback") →
  assoc payload "event" = Some inner →
  (∀ d, inner ≠ JObj d) →
  handle_slack_event hmac self now (JObj payload) timestamp signature body
    = (Raise AttributeError, self).
Proof.
  intros Hverify Htype Hevent Hnot.
  rewrite (handle_slack_event_verified _ _ _ _ _ _ _ Hverify). simpl.
  rewrite Htype, Hevent. simpl.
  unfold _process_event_callback.
  by rewrite (_parse_event_not_dict inner Hnot).
Qed.

Lemma malformed_inner_event_fails_witness :
  let payload := [("type", JStr "event_callback"); ("event", JNull)] in
  let self := {| signing_secret := "secret"; on_event := None;
                 _event_queue := []; _running := false |} in
  handle_slack_event (λ _ _, "5f") self 1700000000 (JObj payload)
    "1700000000" "v0=5f" "body"
  = (Raise AttributeError, self).
Proof.
  intros payload self.
  apply (malformed_inner_event_fails (λ _ _, "5f") self 1700000000 payload
           JNull "1700000000" "v0=5f" "body");
    [reflexivity|reflexivity|reflexivity|discriminate].
Defined.

(** X13.  The handler of the POST endpoint raises AttributeError, before
    anything else is done, when the request state has no attribute app.
    Once that attribute is found it raises nothing but HTTP 401 and
    HTTP 500: 500 while the application has no ingestion service yet, and
    401 for a body that is not JSON, whatever the signature headers, the
    service being left as it was. *)
Theorem endpoint_raises_only_http_errors
    (hmac : string → string → string) (state_app : option ApplicationState)
    (now : Q) (headers : gmap string string) (request_json : PyResult json)
    (body : string) :
  (state_app = None →
   slack_events hmac state_app now headers request_json body
   = (Raise AttributeError, None)) ∧
  (is_Some state_app →
   match (slack_events hmac state_app now headers request_json body).1 with
   | Return _ => True
   | Raise (HTTPException status _) => status = 401 ∨ status = 500
   | Raise _ => False
   end) ∧
  (∀ app, state_app = Some app → ingestion_service app = None →
   ∃ detail,
     slack_events hmac state_app now headers request_json body
     = (Raise (HTTPException 500 detail), Some app)) ∧
  (∀ service, state_app = Some {| ingestion_service := Some service |} →
   request_json = Raise JSONDecodeError →
   ∃ detail,
     slack_events hmac state_app now headers request_json body
     = (Raise (HTTPException 401 detail),
        Some {| ingestion_service := Some service |})).
Proof.
  unfold slack_events. split; [by intros ->|]. split; [|split].
  - intros [app ->]. destruct (ingestion_service app) as [service|]; simpl;
      [|by right].
    destruct request_json as [event_data|e].
    + destruct (handle_slack_event _ _ _ _ _ _ _) as [[r|e] service']; simpl;
        [done|]. destruct e; simpl; auto.
    + destruct e; simpl; auto.
  - intros app -> Hnone. rewrite Hnone. by eexists.
  - intros service -> ->. by eexists.
Qed.

(** X14.  A verified payload whose type is not event_callback leaves the
    service unchanged: a url_verification payload is answered with its
    challenge (None when it carries none), every other type with the
    acknowledgment. *)
Theorem only_event_callback_enqueues
    (hmac : string → string → string) (self : EventIngestionService)
    (now : Q) (payload : list (string * json))
    (timestamp signature body : string) :
  verify_signature hmac self now timestamp signature body = Return true →
  eq_str (default JNull (assoc payload "type")) "event_callback" = false →
  handle_slack_event hmac self now (JObj payload) timestamp signature body
  = (Return
       (if eq_str (default JNull (assoc payload "type")) "url_verification"
        then JObj [("challenge", default JNull (assoc payload "challenge"))]
        else JObj [("ok", JBool true)]),
     self).
Proof.
  intros Hverify Hkind.
  rewrite (handle_slack_event_verified _ _ _ _ _ _ _ Hverify). simpl.
  rewrite Hkind. by destruct (eq_str _ "url_verification").
Qed.

Lemma only_event_callback_enqueues_witness :
  let payload := [("type", JStr "url_verification")] in
  let self := {| signing_secret := "secret"; on_event := None;
                 _event_queue := []; _running := false |} in
  handle_slack_event (λ _ _, "5f") self 1700000000 (JObj payload)
    "1700000000" "v0=5f" "body"
  = (Return (JObj [("challenge", JNull)]), self).
Proof.
  intros payload self.
  apply (only_event_callback_enqueues (λ _ _, "5f") self 1700000000 payload
           "1700000000" "v0=5f" "body"); reflexivity.
Defined.

End IngestionExtraTheorems2.

(** * Further properties of the decision engine *)

Section CoordinatorExtras.

Import Coordinator.

Lemma max_list_is_maximum (first : Q) (rest : list Q) :
  max_list first rest ∈ first :: rest ∧
  ∀ x, x ∈ first :: rest → (x <= max_list first rest)%Q.
Proof.
  unfold max_list. revert first.
  induction rest as [|r rest IH]; intros first; simpl.
  - split; [by left|]. intros x Hx. apply list_elem_of_singleton in Hx.
    subst x. apply Qle_refl.
  - destruct (IH (Py.max first r)) as [Hin Hub]. split.
    + apply elem_of_cons in Hin as [->|Hin].
      * unfold Py.max. destruct (Py.gt r first); [right|]; by left.
      * by do 2 right.
    + intros x Hx.
      assert (Hstep : (x <= Py.max first r)%Q ∨ x ∈ rest).
      { apply elem_of_cons in Hx as [->|Hx].
        - left. unfold Py.max. destruct (Py.gt r first) eqn:Hgt.
          + apply gt_true_iff in Hgt. lra.
          + apply Qle_refl.
        - apply elem_of_cons in Hx as [->|Hx]; [|by right].
          left. unfold Py.max. destruct (Py.gt r first) eqn:Hgt.
          + apply Qle_refl.
          + by apply gt_false_iff in Hgt. }
      destruct Hstep as [Hle|Hrest].
      * eapply Qle_trans; [exact Hle|]. apply Hub. by left.
      * apply Hub. by right.
Qed.

(** X15.  The engine answers prompt_ownership exactly for the conversations
    in question_raised that need an owner and that the coarse check
    [should_intervene] flags. *)
Theorem prompt_ownership_iff_flagged (now : datetime) (state : string)
    (time_in_state : Q) (intent : string) (needs_owner : bool)
    (gaps : list Q) (count : Z) (last_activity_at : datetime) :
  action <$> evaluate now state time_in_state intent needs_owner gaps count
               last_activity_at
    = Some "prompt_ownership"
  ↔ state = "question_raised" ∧ needs_owner = true ∧
    should_intervene time_in_state state = true.
Proof.
  unfold evaluate.
  change (inject_Z (ownership_timeout_hours THRESHOLDS * 3600)) with 86400%Q.
  destruct (bool_decide (state = "question_raised") && needs_owner
            && Py.gt time_in_state 86400) eqn:Hrule.
  - split; [intros _|done].
    apply andb_true_iff in Hrule as [Hrule Hlate].
    apply andb_true_iff in Hrule as [Hstate Hneeds].
    apply bool_decide_eq_true in Hstate. subst state.
    split; [done|]. split; [done|].
    unfold should_intervene. by rewrite Hlate.
  - split.
    + intros Haction. exfalso. revert Haction.
      repeat (destruct (_ && _); [simpl; discriminate|]).
      destruct gaps; [simpl; discriminate|].
      destruct (Py.gt _ _); simpl; discriminate.
    + intros (-> & -> & Hflag). exfalso.
      unfold should_intervene in Hflag. simpl in Hflag, Hrule.
      rewrite Hrule in Hflag. discriminate.
Qed.

(** X16.  Outside question_raised the time spent in the state has no
    influence on the decision: whatever [should_intervene] says about a
    stalled in_progress conversation, [evaluate] takes no account of it. *)
Theorem time_in_state_only_matters_when_question_raised (now : datetime)
    (state : string) (t1 t2 : Q) (intent : string) (needs_owner : bool)
    (gaps : list Q) (count : Z) (last_activity_at : datetime) :
  state ≠ "question_raised" →
  evaluate now state t1 intent needs_owner gaps count last_activity_at
  = evaluate now state t2 intent needs_owner gaps count last_activity_at.
Proof.
  intros Hstate. unfold evaluate.
  by rewrite (bool_decide_false _ Hstate).
Qed.

Lemma time_in_state_only_matters_when_question_raised_witness :
  "in_progress" ≠ "question_raised" ∧
  should_intervene 200000 "in_progress" = true ∧
  evaluate 0 "in_progress" 200000 "update" false [] 0 0
  = evaluate 0 "in_progress" 0 "update" false [] 0 0.
Proof.
  split; [discriminate|]. split; [reflexivity|].
  apply time_in_state_only_matters_when_question_raised. discriminate.
Defined.

(** X17.  A flag_gap decision carries in its metadata the largest of the
    observed severities: a member of the list, above 0.7, that no other
    member exceeds. *)
Theorem flag_gap_reports_maximum (now : datetime) (state : string)
    (time_in_state : Q) (intent : string) (needs_owner : bool)
    (gaps : list Q) (count : Z) (last_activity_at : datetime)
    (d : CoordinationDecision) :
  evaluate now state time_in_state intent needs_owner gaps count
    last_activity_at = Some d →
  action d = "flag_gap" →
  priority d = "high" ∧
  ∃ m, metadata d = [("max_severity", MFloat m)] ∧
       m ∈ gaps ∧ (0.7 < m)%Q ∧ ∀ g, g ∈ gaps → (g <= m)%Q.
Proof.
  unfold evaluate. intros Heval Haction.
  repeat (destruct (_ && _);
          [inversion Heval; subst; simpl in Haction; discriminate|]).
  destruct gaps as [|first rest]; [discriminate|].
  destruct (Py.gt (max_list first rest) 0.7) eqn:Hgt; [|discriminate].
  inversion Heval; subst; clear Heval. simpl. split; [done|].
  exists (max_list first rest).
  destruct (max_list_is_maximum first rest) as [Hin Hub].
  split; [done|]. split; [done|]. split; [by apply gt_true_iff|done].
Qed.

Lemma flag_gap_reports_maximum_witness :
  ∃ d, evaluate 0 "idle" 0 "update" false [0.5; 0.9; 0.8]%Q 0 0 = Some d ∧
       action d = "flag_gap" ∧
       ∃ m, metadata d = [("max_severity", MFloat m)] ∧ (0.7 < m)%Q.
Proof.
  eexists. split; [reflexivity|]. split; [reflexivity|].
  destruct (flag_gap_reports_maximum 0 "idle" 0 "update" false
              [0.5; 0.9; 0.8]%Q 0 0 _ eq_refl eq_refl)
    as (_ & m & Hmeta & _ & Hgt & _).
  by exists m.
Defined.

End CoordinatorExtras.

(** * Further properties of signal extraction *)

Section UnderstandingExtras.

Import Py Understanding.

Variable float_of_str : string → option float.
Variable lower strip : string → string.
Variable json_loads : string → PyResult json.
Variable str : json → string.

(** X18.  Handed the name of an intent (up to case and surrounding blanks),
    the intent parser gives back question, bug_report and update, but maps
    the name "resolution" to update: none of its keywords for a resolution
    ("fix", "resolve", "done") occurs in that name. *)
Theorem parse_intent_of_value (s : string) (i : IntentType.t) :
  strip (lower s) = IntentType.value i →
  _parse_intent lower strip (JStr s)
  = Return match i with
           | IntentType.RESOLUTION => IntentType.UPDATE
           | _ => i
           end.
Proof.
  intros Hname. unfold _parse_intent. rewrite Hname.
  by destruct i.
Qed.

(** X19.  The only exception [_parse_float] lets through is OverflowError,
    and only for an integer too large for a float; None, a str that float()
    refuses, a list or a dict give the default. *)
Theorem parse_float_raises_only_overflow (value : json) (dflt : float) :
  (∀ e, _parse_float float_of_str value dflt = Raise e →
        e = OverflowError ∧ ∃ z, value = JInt z ∧ float_limit ≤ Z.abs z) ∧
  (match value with
   | JNull | JList _ | JObj _ => True
   | JStr s => float_of_str s = None
   | _ => False
   end →
   _parse_float float_of_str value dflt = Return dflt).
Proof.
  split.
  - intros e. destruct value as [|b|z|f|s|l|d]; simpl; try discriminate.
    + unfold float_of_int. case_bool_decide as Hfit; simpl; [discriminate|].
      intros He. inversion He. split; [done|]. exists z. split; [done|lia].
    + destruct (float_of_str s); discriminate.
  - destruct value as [|b|z|f|s|l|d]; simpl; try done.
    by intros ->.
Qed.

Variable analyzer : string → string → PyResult Prediction.

(** X20.  One unusable field discards the whole prediction: when the
    intent of the prediction is not a str, or its confidence is an integer
    too large for a float, [analyze_message] answers with the default
    signal whatever the other fields hold. *)
Theorem unusable_field_discards_prediction (message : string)
    (history : option (list string)) (p : Prediction) :
  analyzer message (build_context history) = Return p →
  (∀ s, p_intent p ≠ Some (JStr s)) ∨
  (∃ z, p_confidence p = Some (JInt z) ∧ float_limit ≤ Z.abs z) →
  analyze_message float_of_str lower strip json_loads str analyzer
    message history
  = default_signal.
Proof.
  intros Hp Hbad. unfold analyze_message, analyze_try. rewrite Hp. simpl.
  destruct Hbad as [Hintent|(z & Hconf & Hbig)].
  - destruct (attr (p_confidence p)) as [c|]; simpl; [|done].
    destruct (_parse_float float_of_str c (Fin 0.5)); simpl; [|done].
    destruct (attr (p_entities p)) as [es|]; simpl; [|done].
    destruct (_parse_list strip json_loads str es); simpl; [|done].
    destruct (attr (p_needs_owner p)); simpl; [|done].
    destruct (p_intent p) as [v|]; simpl; [|done].
    destruct v; simpl; try done. by destruct (Hintent s).
  - rewrite Hconf. simpl. unfold float_of_int.
    rewrite bool_decide_false by lia. done.
Qed.

(** X21.  The confidence of a signal built from a float is that float
    clamped to [0, 1]: a value strictly between 0 and 1 is kept, a value at
    or below 0 and minus infinity give 0.0, a value at or above 1, plus
    infinity and also NaN give 1.0. *)
Theorem confidence_is_clamped (message context : string) (p : Prediction)
    (f : float) (s : BehavioralSignal) :
  analyzer message context = Return p →
  p_confidence p = Some (JFloat f) →
  analyze_try float_of_str lower strip json_loads str analyzer message context
    = Return s →
  match f with
  | NaN | PosInf => confidence s = Fin 1.0
  | NegInf => confidence s = Fin 0.0
  | Fin q =>
      ((0 < q)%Q → (q < 1)%Q → confidence s = Fin q) ∧
      ((q <= 0)%Q → confidence s = Fin 0.0) ∧
      ((1 <= q)%Q → confidence s = Fin 1.0)
  end.
Proof.
  intros Hp Hconf. unfold analyze_try. rewrite Hp. simpl.
  rewrite Hconf. simpl. intros H.
  repeat (apply bind_return in H; destruct H as (? & _ & H)).
  inversion H; subst; clear H. simpl.
  destruct f as [q| | |]; try reflexivity.
  unfold fmin, fmax. simpl.
  change (Py.lt q 1.0) with (Py.gt 1.0 q).
  destruct (Py.gt 1.0 q) eqn:Hhigh; simpl.
  - change (Py.lt 0.0 q) with (Py.gt q 0.0).
    apply gt_true_iff in Hhigh.
    destruct (Py.gt q 0.0) eqn:Hlow.
    + apply gt_true_iff in Hlow. repeat split; intros; try done; exfalso; lra.
    + apply gt_false_iff in Hlow. repeat split; intros; try done; exfalso; lra.
  - apply gt_false_iff in Hhigh.
    repeat split; intros; try done; exfalso; lra.
Qed.

End UnderstandingExtras.

Section UnderstandingWitnesses.

Import Py Understanding.

Lemma parse_intent_of_value_witness :
  (λ x : string, x) ((λ x : string, x) "resolution") = IntentType.value IntentType.RESOLUTION ∧
  _parse_intent (λ x, x) (λ x, x) (JStr "resolution") = Return IntentType.UPDATE.
Proof.
  split; [reflexivity|].
  apply (parse_intent_of_value (λ x, x) (λ x, x) "resolution" IntentType.RESOLUTION).
  reflexivity.
Defined.

Lemma unusable_field_discards_prediction_witness :
  let p := {| p_intent := Some JNull;
              p_confidence := Some (JFloat (Fin 0.9));
              p_topic := Some (JStr "auth");
              p_entities := Some (JList []);
              p_needs_owner := Some (JBool true);
              p_implied_action := Some (JStr "assign_owner") |} in
  analyze_message (λ _, None) (λ x, x) (λ x, x) (λ _, Raise JSONDecodeError) (λ _, "")
    (λ _ _, Return p) "who owns the login bug?" None
  = default_signal.
Proof.
  intros p.
  apply (unusable_field_discards_prediction (λ _, None) (λ x, x) (λ x, x)
           (λ _, Raise JSONDecodeError) (λ _, "") (λ _ _, Return p)
           "who owns the login bug?" None p);
    [reflexivity|left; intros s; discriminate].
Defined.

Lemma confidence_is_clamped_witness :
  let p := {| p_intent := Some (JStr "question");
              p_confidence := Some (JFloat NaN);
              p_topic := Some (JStr "auth");
              p_entities := Some (JList []);
              p_needs_owner := Some (JBool true);
              p_implied_action := Some (JStr "assign_owner") |} in
  confidence
    (analyze_message (λ _, None) (λ x, x) (λ x, x) (λ _, Raise JSONDecodeError) (λ _, "")
       (λ _ _, Return p) "who owns the login bug?" None)
  = Fin 1.0.
Proof.
  intros p.
  apply (confidence_is_clamped (λ _, None) (λ x, x) (λ x, x) (λ _, Raise JSONDecodeError)
           (λ _, "") (λ _ _, Return p) "who owns the login bug?" "" p NaN);
    reflexivity.
Defined.

End UnderstandingWitnesses.

Section ContextWindow.

Import Py Understanding.

(** X22.  The context handed to the analyzer is built from the last five
    messages of the history only; without history, or with an empty one,
    it is the empty string. *)
Theorem context_uses_last_five (older recent : list string) :
  length recent = 5%nat →
  build_context (Some (older ++ recent)) = build_context (Some recent) ∧
  build_context None = "" ∧ build_context (Some []) = "".
Proof.
  intros Hlen. split; [|done].
  assert (Hlast : last_n 5 (older ++ recent) = recent).
  { unfold last_n. rewrite length_app, Hlen.
    replace (length older + 5 - 5)%nat with (length older) by lia.
    by rewrite drop_app_length. }
  assert (Hsame : last_n 5 recent = recent).
  { unfold last_n. by rewrite Hlen. }
  assert (Hbuild : ∀ l : list string, l ≠ [] →
            build_context (Some l)
            = "Recent messages:" +:+ newline +:+
              join_lines ((λ m, "- " +:+ str_take 200 m) <$> last_n 5 l)).
  { intros l Hl. by destruct l. }
  rewrite !Hbuild; [by rewrite Hlast, Hsame| |].
  - intros ->. discriminate.
  - intros Happ. apply app_eq_nil in Happ as [_ ->]. discriminate.
Qed.

Lemma context_uses_last_five_witness :
  length ["a"; "b"; "c"; "d"; "e"] = 5%nat ∧
  build_context (Some (["old"; "older"] ++ ["a"; "b"; "c"; "d"; "e"]))
  = build_context (Some ["a"; "b"; "c"; "d"; "e"]).
Proof.
  split; [reflexivity|].
  apply (context_uses_last_five ["old"; "older"] ["a"; "b"; "c"; "d"; "e"]).
  reflexivity.
Defined.

End ContextWindow.

(** * Properties of the proposed transitions *)

Section ProposalFacts.

Import StateMachine Trail Main.

Lemma proposal_keeps_ownerless (self : BehaviorStateMachine)
    (input : Understanding.BehavioralSignal * TransitionEnv) :
  ownerless (current_state self) →
  ownerless (current_state
    (transition_to self (call_state (proposal_call self input))
       (call_trigger (proposal_call self input))
       (call_metadata (proposal_call self input))
       (call_env (proposal_call self input))).2).
Proof.
  intros [Hno Hnp].
  destruct (transition_to_cases self (call_state (proposal_call self input))
              (call_trigger (proposal_call self input))
              (call_metadata (proposal_call self input))
              (call_env (proposal_call self input)))
    as [[_ ->]|[Hcan (t & _ & _ & _ & Hcur & _ & _)]]; [done|].
  rewrite Hcur. rewrite can_transition_legal_table in Hcan.
  simpl in *. unfold determine_state_transition in *.
  destruct input as [[[] topic []] env]; simpl in *;
    destruct (current_state self); simpl in *;
    try discriminate; try done; split; discriminate.
Qed.

Lemma run_proposals_ownerless
    (inputs : list (Understanding.BehavioralSignal * TransitionEnv)) :
  ∀ self, ownerless (current_state self) →
          ownerless (current_state (run_proposals self inputs)).
Proof.
  induction inputs as [|input inputs IH]; intros self Hself; simpl; [done|].
  apply IH. by apply proposal_keeps_ownerless.
Qed.

(** X23.  [determine_state_transition] never proposes owner_assigned, and
    in_progress, which it proposes for a bug report, can only be entered
    from owner_assigned: a client that starts from a fresh machine and
    attempts every proposed state with [transition_to] never brings the
    machine to owner_assigned or in_progress, whatever signals arrive. *)
Theorem proposals_never_reach_ownership
    (inputs : list (Understanding.BehavioralSignal * TransitionEnv)) :
  (∀ self signal trigger,
     determine_state_transition self signal trigger ≠ OWNER_ASSIGNED) ∧
  ownerless (current_state (run_proposals init inputs)).
Proof.
  split.
  - intros self [[] topic []] trigger; discriminate.
  - apply run_proposals_ownerless. split; discriminate.
Qed.

(** X24.  On a fresh machine the proposed state is accepted by
    [transition_to] exactly for a question; the state proposed for a bug
    report is accepted in owner_assigned only, and the idle state proposed
    for an update in resolved only. *)
Theorem proposal_acceptance (self : BehaviorStateMachine)
    (signal : Understanding.BehavioralSignal) (trigger : string) :
  let proposed := determine_state_transition self signal trigger in
  (current_state self = IDLE →
   (can_transition self proposed = true
    ↔ Understanding.intent signal = Understanding.IntentType.QUESTION)) ∧
  (Understanding.intent signal = Understanding.IntentType.BUG_REPORT →
   (can_transition self proposed = true
    ↔ current_state self = OWNER_ASSIGNED)) ∧
  (Understanding.intent signal = Understanding.IntentType.UPDATE →
   (can_transition self proposed = true ↔ current_state self = RESOLVED)).
Proof.
  simpl. rewrite can_transition_legal_table.
  unfold determine_state_transition.
  destruct signal as [[] topic [] u c es a]; simpl;
    (split; [intros ->; simpl; split; (done || discriminate)|]);
    (split; intros Hi; try discriminate);
    destruct (current_state self); simpl; split; (done || discriminate).
Qed.

End ProposalFacts.

(** * Further properties of the gap detector *)

Section GapDetectorExtras.

Import Models Analytics GapBounds.

Lemma detect_gaps_reads_three_tables (db1 db2 : Db) (now : datetime)
    (uuid4 : nat → string) (cid : string) :
  conversations db1 = conversations db2 →
  state_transitions db1 = state_transitions db2 →
  messages db1 = messages db2 →
  (detect_gaps db1 now uuid4 cid).1 = (detect_gaps db2 now uuid4 cid).1.
Proof.
  intros Hc Ht Hm.
  unfold detect_gaps, query_conversation, query_transitions, query_messages.
  rewrite Hc, Ht, Hm.
  by destruct (head _).
Qed.

Lemma detect_gaps_tables (db : Db) (now : datetime) (uuid4 : nat → string)
    (cid : string) :
  conversations (detect_gaps db now uuid4 cid).2 = conversations db ∧
  state_transitions (detect_gaps db now uuid4 cid).2 = state_transitions db ∧
  messages (detect_gaps db now uuid4 cid).2 = messages db ∧
  communication_gaps (detect_gaps db now uuid4 cid).2
  = communication_gaps db ++ (gap_row cid <$> (detect_gaps db now uuid4 cid).1).
Proof.
  unfold detect_gaps.
  destruct (query_conversation db cid) as [conversation|]; simpl.
  - case_bool_decide as Hempty.
    + rewrite Hempty. simpl. by rewrite app_nil_r.
    + done.
  - by rewrite app_nil_r.
Qed.


Lemma detect_gaps_unkeyed (db1 db2 : Db) (now : datetime)
    (uuid4 uuid4' : nat → string) (cid : string) :
  conversations db1 = conversations db2 →
  state_transitions db1 = state_transitions db2 →
  messages db1 = messages db2 →
  GapStore.unkeyed <$> (detect_gaps db1 now uuid4 cid).1
  = GapStore.unkeyed <$> (detect_gaps db2 now uuid4' cid).1.
Proof.
  intros Hc Ht Hm.
  unfold detect_gaps, query_conversation, query_transitions, query_messages.
  rewrite Hc, Ht, Hm.
  destruct (head _) as [conversation|]; simpl; [|done].
  rewrite !fmap_app. f_equal.
  - unfold ownership_gaps. destruct (_ && _); [|done].
    by destruct (Py.gt _ _).
  - unfold context_gaps. by case_bool_decide.
Qed.

Lemma detect_gaps_keyed_cases (db : Db) (now : datetime)
    (uuid4 : nat → string) (cid : string) :
  GapStore.detect_gaps_keyed db now uuid4 cid =
    if bool_decide ((detect_gaps db now uuid4 cid).1 = [])
    then (Return (detect_gaps db now uuid4 cid).1, db)
    else if bool_decide
              (GapStore.ids_fresh db (detect_gaps db now uuid4 cid).1)
    then (Return (detect_gaps db now uuid4 cid).1,
          (detect_gaps db now uuid4 cid).2)
    else (Raise GapStore.IntegrityError, db).
Proof.
  unfold GapStore.detect_gaps_keyed, detect_gaps.
  destruct (query_conversation db cid) as [conversation|]; simpl; [|done].
  case_bool_decide as Hempty; [done|].
  unfold GapStore.commit_gaps. by case_bool_decide.
Qed.

(** What a scan that returned has done to the tables. *)
Lemma detect_gaps_keyed_returned (db : Db) (now : datetime)
    (uuid4 : nat → string) (cid : string) (gaps : list GapData) (db' : Db) :
  GapStore.detect_gaps_keyed db now uuid4 cid = (Return gaps, db') →
  gaps = (detect_gaps db now uuid4 cid).1 ∧
  conversations db' = conversations db ∧
  state_transitions db' = state_transitions db ∧
  messages db' = messages db ∧
  communication_gaps db' = communication_gaps db ++ (gap_row cid <$> gaps).
Proof.
  rewrite detect_gaps_keyed_cases.
  destruct (detect_gaps_tables db now uuid4 cid) as (Hc & Ht & Hm & Hg).
  case_bool_decide as Hempty.
  - intros Heq. inversion Heq; subst. rewrite Hempty. simpl.
    by rewrite app_nil_r.
  - case_bool_decide; [|discriminate].
    intros Heq. by inversion Heq; subst.
Qed.

(** X26.  The scan does not look at the gaps already stored.  After a scan
    that returned, a second scan at the same clock reading finds the same
    gaps again: with newly drawn identifiers it returns them, equal to the
    first ones up to the identifier, and stores them a second time; with
    the identifiers of the first scan the commit raises IntegrityError and
    nothing more is stored. *)
Theorem rescan_stores_again_or_fails (db : Db) (now : datetime)
    (uuid4 uuid4' : nat → string) (cid : string) (gaps1 : list GapData)
    (db1 : Db) :
  GapStore.detect_gaps_keyed db now uuid4 cid = (Return gaps1, db1) →
  (gaps1 ≠ [] →
   GapStore.detect_gaps_keyed db1 now uuid4 cid
   = (Raise GapStore.IntegrityError, db1)) ∧
  (∀ gaps2 db2,
     GapStore.detect_gaps_keyed db1 now uuid4' cid = (Return gaps2, db2) →
     GapStore.unkeyed <$> gaps2 = GapStore.unkeyed <$> gaps1 ∧
     communication_gaps db2
     = communication_gaps db ++ (gap_row cid <$> gaps1)
                             ++ (gap_row cid <$> gaps2)).
Proof.
  intros Hfirst.
  destruct (detect_gaps_keyed_returned _ _ _ _ _ _ Hfirst)
    as (Hgaps1 & Hc & Ht & Hm & Hg).
  split.
  - intros Hsome. rewrite detect_gaps_keyed_cases.
    rewrite (detect_gaps_reads_three_tables db1 db now uuid4 cid Hc Ht Hm).
    rewrite <- Hgaps1.
    rewrite bool_decide_false by done.
    rewrite bool_decide_false; [done|].
    intros [_ Hnew]. destruct gaps1 as [|g gaps1]; [done|].
    inversion Hnew as [|? ? Hg0 _]; subst. apply Hg0.
    unfold GapStore.stored_ids. rewrite Hg, fmap_app.
    apply elem_of_app. right. simpl. by left.
  - intros gaps2 db2 Hsecond.
    destruct (detect_gaps_keyed_returned _ _ _ _ _ _ Hsecond)
      as (Hgaps2 & _ & _ & _ & Hg2).
    split.
    + rewrite Hgaps2, Hgaps1. by apply detect_gaps_unkeyed.
    + by rewrite Hg2, Hg, <- (assoc_L (++)).
Qed.

Lemma rescan_stores_again_or_fails_witness :
  let question t :=
    {| m_conversation_id := "c1"; m_content := "where is the deploy log?";
       m_extracted_intent := Some IntentType.QUESTION; m_timestamp := t |} in
  let db := {| conversations :=
                 [{| c_id := "c1";
                     c_current_state := Some ConversationState.CLARIFYING |}];
               state_transitions := [];
               messages := [question 1; question 2; question 3];
               communication_gaps := [] |} in
  ∃ gaps1 db1,
    GapStore.detect_gaps_keyed db 50 (λ _, "u1") "c1" = (Return gaps1, db1) ∧
    gaps1 ≠ [] ∧
    GapStore.detect_gaps_keyed db1 50 (λ _, "u1") "c1"
    = (Raise GapStore.IntegrityError, db1).
Proof.
  intros question db.
  destruct (GapStore.detect_gaps_keyed db 50 (λ _, "u1") "c1")
    as [[gaps1|e] db1] eqn:Hfirst; [|by vm_compute in Hfirst].
  exists gaps1, db1. split; [reflexivity|].
  assert (Hsome : gaps1 ≠ []).
  { intros ->. by vm_compute in Hfirst. }
  split; [exact Hsome|].
  by apply (rescan_stores_again_or_fails db 50 (λ _, "u1") (λ _, "u1") "c1"
              gaps1 db1 Hfirst).
Defined.

Lemma ownership_severity_bounds (hours_since : Q) :
  (24 < hours_since)%Q →
  (1 / 3 < ownership_severity hours_since)%Q ∧
  (ownership_severity hours_since <= 1)%Q.
Proof.
  intros Hlate. unfold ownership_severity.
  assert (Hthird : (1 / 3 < hours_since / 72)%Q).
  { apply Qlt_shift_div_l; [done|].
    assert (Heq : (1 / 3 * 72 == 24)%Q) by (by vm_compute).
    by rewrite Heq. }
  destruct (min_cases 1.0 (hours_since / 72)) as [[Hlt ->]|[Hle ->]].
  - split; [done|]. lra.
  - split; by vm_compute.
Qed.

(** X27.  Every gap a scan returns has a severity above 1/3 and at most 1;
    and a conversation without any recorded transition gets no ownership
    gap, whatever its state and however long it has been waiting. *)
Theorem gap_severities_bounded (db : Db) (now : datetime)
    (uuid4 : nat → string) (cid : string) :
  Forall (λ g, (1 / 3 < severity g)%Q ∧ (severity g <= 1)%Q)
         (detect_gaps db now uuid4 cid).1 ∧
  (query_transitions db cid = [] →
   Forall (λ g, gap_type g ≠ GapType.OWNERSHIP)
          (detect_gaps db now uuid4 cid).1).
Proof.
  unfold detect_gaps.
  destruct (query_conversation db cid) as [conversation|]; simpl;
    [|split; by constructor].
  split.
  - apply Forall_app. split.
    + unfold ownership_gaps. destruct (_ && _); [|by constructor].
      destruct (Py.gt _ _) eqn:Hlate; [|by constructor].
      apply gt_true_iff in Hlate.
      constructor; [|by constructor]. simpl.
      by apply ownership_severity_bounds.
    + rewrite context_gaps_cases. case_bool_decide; [|by constructor].
      constructor; [|by constructor]. simpl. split; by vm_compute.
  - intros Hnone. rewrite Hnone. apply Forall_app. split.
    + unfold ownership_gaps, time_since_question. simpl.
      destruct (_ && _); by constructor.
    + rewrite context_gaps_cases. case_bool_decide; [|by constructor].
      constructor; [by simpl|by constructor].
Qed.

End GapDetectorExtras.

Section QuestionBound.

Import Models Analytics GapBounds.

Lemma count_cons {A} (f : A → bool) (x : A) (l : list A) :
  count f (x :: l) = ((if f x then 1 else 0) + count f l)%nat.
Proof. unfold count. simpl. by destruct (f x). Qed.

Lemma count_le {A} (f g : A → bool) (l : list A) :
  (∀ x, f x = true → g x = true) → (count f l ≤ count g l)%nat.
Proof.
  intros Hfg. induction l as [|x l IH]; [done|].
  rewrite !count_cons. pose proof (Hfg x) as Hx.
  destruct (f x), (g x); simpl; first [lia|by specialize (Hx eq_refl)].
Qed.

Lemma row_count_le (messages : list Message) (k : nat) (msg1 : Message) :
  (row_count messages (k, msg1)
   ≤ if is_question msg1 then count is_question (drop (k + 1) messages) else 0)%nat.
Proof.
  unfold row_count. simpl. destruct (is_question msg1); [|done].
  apply count_le. intros msg2 Hboth. by apply andb_true_iff in Hboth as [? _].
Qed.

Lemma window_sum_le (messages : list Message) (window : list Message) :
  ∀ (k : nat) (rest : list Message),
    drop k messages = window ++ rest →
    (sum_list (row_count messages <$> enumerate_from k window)
     ≤ question_pairs (window ++ rest))%nat.
Proof.
  induction window as [|msg1 window IH]; intros k rest Hdrop; [simpl; lia|].
  assert (Hk : messages !! k = Some msg1).
  { pose proof (lookup_drop messages k 0) as Hlook.
    rewrite Hdrop, Nat.add_0_r in Hlook. by rewrite <- Hlook. }
  rewrite (drop_S _ _ _ Hk) in Hdrop. inversion Hdrop as [Htail].
  specialize (IH (S k) rest Htail).
  change (sum_list (row_count messages <$> enumerate_from k (msg1 :: window)))
    with (row_count messages (k, msg1)
          + sum_list (row_count messages <$> enumerate_from (S k) window))%nat.
  pose proof (row_count_le messages k msg1) as Hrow.
  rewrite Nat.add_1_r, Htail in Hrow.
  change (question_pairs ((msg1 :: window) ++ rest))
    with ((if is_question msg1 then count is_question (window ++ rest) else 0)
          + question_pairs (window ++ rest))%nat.
  lia.
Qed.

Lemma question_pairs_small (l : list Message) :
  ((count is_question l ≤ 1)%nat → question_pairs l = 0%nat) ∧
  ((count is_question l ≤ 2)%nat → (question_pairs l ≤ 1)%nat).
Proof.
  induction l as [|msg l [IH1 IH2]]; [split; intros _; simpl; lia|].
  rewrite count_cons. simpl.
  destruct (is_question msg); simpl; split; intros Hcount.
  - rewrite IH1 by lia. lia.
  - rewrite IH1 by lia. lia.
  - by apply IH1.
  - by apply IH2.
Qed.

Lemma count_similar_questions_le (messages : list Message) :
  (count_similar_questions messages ≤ question_pairs messages)%nat.
Proof.
  unfold count_similar_questions, enumerate.
  rewrite outer_loop_sum, Nat.add_0_l.
  rewrite <- (take_drop 10 messages) at 3.
  apply window_sum_le. by rewrite take_drop.
Qed.

(** X28.  A context gap needs at least three question messages: a scan of
    a conversation with at most two messages of question intent returns no
    context gap, however alike the two are. *)
Theorem context_gap_needs_three_questions (db : Db) (now : datetime)
    (uuid4 : nat → string) (cid : string) :
  (count is_question (query_messages db cid) ≤ 2)%nat →
  Forall (λ g, gap_type g ≠ GapType.CONTEXT) (detect_gaps db now uuid4 cid).1.
Proof.
  intros Hfew. unfold detect_gaps.
  destruct (query_conversation db cid) as [conversation|]; simpl;
    [|by constructor].
  apply Forall_app. split.
  - destruct (ownership_gaps_cases conversation (query_transitions db cid)
                now (uuid4 0%nat)) as [-> | ->]; repeat constructor; by simpl.
  - unfold context_gaps.
    pose proof (count_similar_questions_le (query_messages db cid)) as Hle.
    pose proof (proj2 (question_pairs_small (query_messages db cid)) Hfew).
    rewrite bool_decide_false by lia. constructor.
Qed.

Lemma context_gap_needs_three_questions_witness :
  let question t :=
    {| m_conversation_id := "c1"; m_content := "where is the deploy log?";
       m_extracted_intent := Some IntentType.QUESTION; m_timestamp := t |} in
  let db := {| conversations :=
                 [{| c_id := "c1";
                     c_current_state := Some ConversationState.CLARIFYING |}];
               state_transitions := [];
               messages := [question 1; question 2];
               communication_gaps := [] |} in
  (count is_question (query_messages db "c1") ≤ 2)%nat ∧
  Forall (λ g, gap_type g ≠ GapType.CONTEXT)
         (detect_gaps db 50 (λ _, "u") "c1").1.
Proof.
  intros question db.
  assert (Hfew : (count is_question (query_messages db "c1") ≤ 2)%nat)
    by (vm_compute; lia).
  split; [exact Hfew|].
  by apply (context_gap_needs_three_questions db 50 (λ _, "u") "c1").
Defined.

(** X29.  The severity of an ownership gap grows with the waiting time and
    is the waiting time over 72 hours as long as that is at most 72. *)
Theorem ownership_severity_is_a_ramp (h1 h2 : Q) :
  ((h1 <= h2)%Q → (ownership_severity h1 <= ownership_severity h2)%Q) ∧
  ((h1 <= 72)%Q → (ownership_severity h1 == h1 / 72)%Q).
Proof.
  unfold ownership_severity.
  assert (Hdiv : ∀ a b : Q, (a <= b)%Q → (a / 72 <= b / 72)%Q).
  { intros a b Hab. apply Qmult_le_compat_r; [done|by vm_compute]. }
  split.
  - intros Hle. specialize (Hdiv _ _ Hle).
    destruct (min_cases 1.0 (h1 / 72)) as [[? ->]|[? ->]],
             (min_cases 1.0 (h2 / 72)) as [[? ->]|[? ->]]; lra.
  - intros Hle. specialize (Hdiv _ _ Hle).
    assert (Hone : (72 / 72 == 1)%Q) by (by vm_compute).
    destruct (min_cases 1.0 (h1 / 72)) as [[? ->]|[? ->]]; lra.
Qed.

End QuestionBound.

Section OwnershipClock.

Import Models Analytics.

Lemma sorted_last_is_max {A} (key : A → Z) (l : list A) (x : A) :
  Sorted (key_le key) l → last l = Some x → ∀ y, y ∈ l → key y ≤ key x.
Proof.
  intros Hsorted. apply Sorted_StronglySorted in Hsorted;
    [|intros a b c; unfold key_le; lia].
  induction Hsorted as [|a l Hsorted IH Hall]; intros Hlast y Hy.
  - by apply elem_of_nil in Hy.
  - destruct l as [|b l].
    + simpl in Hlast. inversion Hlast; subst.
      apply list_elem_of_singleton in Hy. subst. lia.
    + rewrite last_cons_cons in Hlast.
      apply elem_of_cons in Hy as [->|Hy]; [|by apply IH].
      assert (Hx : x ∈ b :: l) by (by apply last_Some_elem_of).
      rewrite Forall_forall in Hall. by apply Hall.
Qed.

Lemma total_seconds_antitone (now a b : datetime) :
  a ≤ b → (total_seconds now b / 3600 <= total_seconds now a / 3600)%Q.
Proof.
  intros Hab. apply Qmult_le_compat_r; [|by vm_compute].
  unfold total_seconds, Qle. simpl. lia.
Qed.

(** X30.  The waiting time of the ownership rule is counted from the most
    recent transition of the conversation, of whatever kind: it is at most
    the time elapsed since any stored transition of that conversation. *)
Theorem ownership_clock_starts_at_latest_transition (db : Db) (now : datetime)
    (cid : string) (t : StateTransition) :
  t ∈ state_transitions db →
  t_conversation_id t = cid →
  (time_since_question now (query_transitions db cid)
   <= total_seconds now (t_timestamp t) / 3600)%Q.
Proof.
  intros Hrow Hcid.
  assert (Hin : t ∈ query_transitions db cid).
  { unfold query_transitions. rewrite order_by_perm.
    by apply list_elem_of_filter. }
  unfold time_since_question.
  destruct (last (query_transitions db cid)) as [latest|] eqn:Hlast.
  - apply total_seconds_antitone.
    by apply (sorted_last_is_max t_timestamp (query_transitions db cid) latest);
      [apply order_by_sorted|exact Hlast|exact Hin].
  - apply last_None in Hlast. rewrite Hlast in Hin.
    by apply elem_of_nil in Hin.
Qed.

Lemma ownership_clock_starts_at_latest_transition_witness :
  let older := {| t_conversation_id := "c1";
                  t_to_state := ConversationState.CLARIFYING;
                  t_timestamp := 0 |} in
  let newer := {| t_conversation_id := "c1";
                  t_to_state := ConversationState.QUESTION_RAISED;
                  t_timestamp := 7200000000 |} in
  let db := {| conversations := []; state_transitions := [newer; older];
               messages := []; communication_gaps := [] |} in
  older ∈ state_transitions db ∧ t_conversation_id older = "c1" ∧
  (time_since_question 10800000000%Z (query_transitions db "c1")
   <= total_seconds 10800000000%Z (t_timestamp older) / 3600)%Q.
Proof.
  intros older newer db.
  assert (Hin : older ∈ state_transitions db) by (right; left).
  split; [exact Hin|]. split; [reflexivity|].
  by apply (ownership_clock_starts_at_latest_transition db 10800000000 "c1" older).
Defined.

End OwnershipClock.
